(** * AzureBlobStorage: a facade over the Azure blob SDK

    Shallow embedding of [storage/blob_storage.py].  Every method of the
    Python class [AzureBlobStorage] is a short sequence of calls into the
    Azure SDK, so the development has three layers:

    - the Python runtime pieces the facade relies on: exceptions,
      [try]/[except], truthiness of [Optional[str]], [str.encode('utf-8')]
      and [bytes.decode(encoding)];
    - the SDK as an interface ([BlobSdk]): the facade is written once, over
      any implementation of it, exactly as the Python code is written over
      [azure.storage.blob];
    - an in-memory storage account ([InMemory]) implementing that interface
      from the data model of the specification, against which the
      read-after-write laws are stated. *)

From Stdlib Require Import NArith Strings.Byte.
From stdpp Require Import gmap strings list fin_maps.

(** ** Python values *)

(** [bytes]: a sequence of octets. *)
Abbreviation bytes := (list byte).

(** [str] values that pass through a codec are sequences of Unicode code
    points (Python strings may hold lone surrogates [U+D800..U+DFFF]).
    [str] values used as names (containers, blobs, encodings, the
    connection string) are kept as [string]. *)
Abbreviation text := (list N).

(** [data: Union[bytes, str]] of [upload_blob]. *)
Inductive bytes_or_str :=
| Str (s : text)
| Bytes (b : bytes).

(** ** Exceptions *)

(** Error codes the storage service attaches to its responses. *)
Inductive error_code :=
| ContainerNotFound
| BlobNotFound
| ContainerAlreadyExists
| BlobAlreadyExists.

(** The exceptions that can reach the facade: Python built-ins and the
    [azure.core.exceptions] classes.  [ClientAuthenticationError],
    [ServiceRequestError] and [HttpResponseError] stand for the
    authentication, network and remaining service-side failures.
    [KeyboardInterrupt] and [SystemExit] can surface in any call; they
    derive from [BaseException] and not from [Exception]. *)
Inductive exn :=
| ValueError (msg : string)
| LookupError (encoding : string)
| UnicodeEncodeError (encoding : string)
| UnicodeDecodeError (encoding : string)
| ResourceNotFoundError (code : error_code)
| ResourceExistsError (code : error_code)
| ClientAuthenticationError
| ServiceRequestError
| HttpResponseError (status : N)
| KeyboardInterrupt
| SystemExit.

(** [isinstance(e, ResourceNotFoundError)], the test of
    [except ResourceNotFoundError:]. *)
Definition is_ResourceNotFoundError (e : exn) : bool :=
  match e with ResourceNotFoundError _ => true | _ => false end.

(** [isinstance(e, ResourceExistsError)], the test of
    [except ResourceExistsError:]. *)
Definition is_ResourceExistsError (e : exn) : bool :=
  match e with ResourceExistsError _ => true | _ => false end.

(** ** Computations against the remote account

    A method call is a function from the state [W] of the remote account
    to an outcome (an exception or a value) and the state it leaves. *)
Definition M (W A : Type) : Type := W -> (exn + A) * W.

Definition ret {W A} (a : A) : M W A := fun w => (inr a, w).

Definition raise {W A} (e : exn) : M W A := fun w => (inl e, w).

Definition bind {W A B} (m : M W A) (k : A -> M W B) : M W B :=
  fun w =>
    match m w with
    | (inr a, w') => k a w'
    | (inl e, w') => (inl e, w')
    end.

(** A call that stays local (it sends no request): its outcome is known
    without the account. *)
Definition lift {W A} (r : exn + A) : M W A := fun w => (r, w).

(** [try: body except <class>: handler]. *)
Definition try_except {W A} (body : M W A) (catches : exn -> bool)
    (handler : M W A) : M W A :=
  fun w =>
    match body w with
    | (inl e, w') => if catches e then handler w' else (inl e, w')
    | (inr a, w') => (inr a, w')
    end.

(** A computation that leaves the account as it found it, whatever its
    outcome. *)
Definition preserves {W A} (m : M W A) : Prop := forall w, (m w).2 = w.

Declare Scope py_scope.
Delimit Scope py_scope with py.
Notation "x <- m ;; k" := (bind m (fun x => k))
  (at level 100, m at next level, right associativity) : py_scope.
Notation "m ;;; k" := (bind m (fun _ => k))
  (at level 100, right associativity) : py_scope.

(** ** The [utf-8] codec of the runtime *)

Definition byte_of_N (n : N) : byte := default Byte.x00 (Byte.of_N n).

Definition is_surrogate (c : N) : bool := (0xD800 <=? c)%N && (c <=? 0xDFFF)%N.

(** One code point; [None] where the strict error handler raises (lone
    surrogates) and beyond [U+10FFFF], which no [str] holds. *)
Definition utf8_encode_char (c : N) : option bytes :=
  if (c <? 0x80)%N then Some [byte_of_N c]
  else if (c <? 0x800)%N then
    Some [byte_of_N (N.lor 0xC0 (N.shiftr c 6));
          byte_of_N (N.lor 0x80 (N.land c 0x3F))]
  else if (c <? 0x10000)%N then
    if is_surrogate c then None
    else
      Some [byte_of_N (N.lor 0xE0 (N.shiftr c 12));
            byte_of_N (N.lor 0x80 (N.land (N.shiftr c 6) 0x3F));
            byte_of_N (N.lor 0x80 (N.land c 0x3F))]
  else if (c <? 0x110000)%N then
    Some [byte_of_N (N.lor 0xF0 (N.shiftr c 18));
          byte_of_N (N.lor 0x80 (N.land (N.shiftr c 12) 0x3F));
          byte_of_N (N.lor 0x80 (N.land (N.shiftr c 6) 0x3F));
          byte_of_N (N.lor 0x80 (N.land c 0x3F))]
  else None.

Fixpoint utf8_encode (s : text) : option bytes :=
  match s with
  | [] => Some []
  | c :: s' =>
      match utf8_encode_char c, utf8_encode s' with
      | Some b, Some bs => Some (b ++ bs)
      | _, _ => None
      end
  end.

(** [s.encode('utf-8')]. *)
Definition str_encode_utf8 (s : text) : exn + bytes :=
  match utf8_encode s with
  | Some b => inr b
  | None => inl (UnicodeEncodeError "utf-8")
  end.

(** Continuation byte [10xxxxxx] within [lo..hi]: its six payload bits. *)
Definition continuation (lo hi : N) (b : byte) : option N :=
  let n := Byte.to_N b in
  if (lo <=? n)%N && (n <=? hi)%N then Some (N.land n 0x3F) else None.

(** Strict [utf-8] decoding: shortest forms only, no surrogates, nothing
    above [U+10FFFF]; [None] where the runtime raises. *)
Fixpoint utf8_decode (bs : bytes) : option text :=
  match bs with
  | [] => Some []
  | b0 :: r0 =>
      let n0 := Byte.to_N b0 in
      if (n0 <? 0x80)%N then cons n0 <$> utf8_decode r0
      else if (n0 <? 0xC2)%N then None
      else if (n0 <? 0xE0)%N then
        match r0 with
        | b1 :: r1 =>
            match continuation 0x80 0xBF b1 with
            | Some p1 =>
                cons (N.lor (N.shiftl (N.land n0 0x1F) 6) p1) <$> utf8_decode r1
            | None => None
            end
        | _ => None
        end
      else if (n0 <? 0xF0)%N then
        match r0 with
        | b1 :: b2 :: r2 =>
            let lo := if (n0 =? 0xE0)%N then 0xA0%N else 0x80%N in
            let hi := if (n0 =? 0xED)%N then 0x9F%N else 0xBF%N in
            match continuation lo hi b1, continuation 0x80 0xBF b2 with
            | Some p1, Some p2 =>
                cons (N.lor (N.shiftl (N.land n0 0x0F) 12)
                        (N.lor (N.shiftl p1 6) p2)) <$> utf8_decode r2
            | _, _ => None
            end
        | _ => None
        end
      else if (n0 <? 0xF5)%N then
        match r0 with
        | b1 :: b2 :: b3 :: r3 =>
            let lo := if (n0 =? 0xF0)%N then 0x90%N else 0x80%N in
            let hi := if (n0 =? 0xF4)%N then 0x8F%N else 0xBF%N in
            match continuation lo hi b1, continuation 0x80 0xBF b2,
                  continuation 0x80 0xBF b3 with
            | Some p1, Some p2, Some p3 =>
                cons (N.lor (N.shiftl (N.land n0 0x07) 18)
                        (N.lor (N.shiftl p1 12) (N.lor (N.shiftl p2 6) p3)))
                  <$> utf8_decode r3
            | _, _, _ => None
            end
        | _ => None
        end
      else None
  end.

(** The codec registry of the runtime ([codecs.lookup]): the decoder
    registered under an encoding name, if any.  A decoder answers [None]
    where it raises [UnicodeDecodeError]. *)
Class PyCodecs := {
  lookup_decoder : string -> option (bytes -> option text)
}.

(** [b.decode(encoding)].  For empty bytes the runtime answers the empty
    string at once, without looking the encoding up; otherwise it looks
    the decoder up and runs it. *)
Definition bytes_decode `{PyCodecs} (b : bytes) (encoding : string) : exn + text :=
  match b with
  | [] => inr []
  | _ :: _ =>
      match lookup_decoder encoding with
      | None => inl (LookupError encoding)
      | Some decoder =>
          match decoder b with
          | Some s => inr s
          | None => inl (UnicodeDecodeError encoding)
          end
      end
  end.

(** ** Truthiness *)

(** [bool(x)] for [x : Optional[str]]: [None] and [''] are falsy. *)
Definition truthy (x : option string) : bool :=
  match x with
  | Some s => negb (String.eqb s "")
  | None => false
  end.

(** [a or b]: [a] when it is truthy, otherwise [b]. *)
Definition py_or (a b : option string) : option string :=
  if truthy a then a else b.

(** ** The SDK: [azure.storage.blob] *)

(** The handles.  They name what they address; the account behind them is
    reached through the calls of [BlobSdk]. *)
Record BlobServiceClient := { credential : string }.

Record ContainerClient := { container_name : string }.

Record BlobClient := { blob_container : string; blob_name : string }.

(** What a listing or a properties request tells about one blob. *)
Record BlobProperties := { name : string; size : nat }.

(** The part of the SDK that the facade calls, each field named after the
    Python class and method it stands for.  Obtaining a handle is local
    (it may still raise); the other calls are requests to the account. *)
Class BlobSdk (W : Type) := {
  StorageStreamDownloader : Type;
  BlobServiceClient_from_connection_string :
    string -> exn + BlobServiceClient;
  BlobServiceClient_get_container_client :
    BlobServiceClient -> string -> exn + ContainerClient;
  BlobServiceClient_get_blob_client :
    BlobServiceClient -> string -> string -> exn + BlobClient;
  BlobServiceClient_create_container :
    BlobServiceClient -> string -> M W ContainerClient;
  BlobServiceClient_delete_container :
    BlobServiceClient -> string -> M W unit;
  BlobClient_upload_blob : BlobClient -> bytes -> bool -> M W unit;
  BlobClient_download_blob : BlobClient -> M W StorageStreamDownloader;
  StorageStreamDownloader_readall : StorageStreamDownloader -> M W bytes;
  BlobClient_get_blob_properties : BlobClient -> M W BlobProperties;
  BlobClient_delete_blob : BlobClient -> M W unit;
  ContainerClient_list_blobs : ContainerClient -> M W (list BlobProperties)
}.

(** ** The facade: [class AzureBlobStorage] *)

Record AzureBlobStorage := {
  connection_string : string;
  blob_service_client : BlobServiceClient
}.

Section Facade.
Context {W : Type} {sdk : BlobSdk W} {codecs : PyCodecs}.
Local Open Scope py_scope.

(** [__init__(self, connection_string=None)]; [getenv] is [os.getenv]. *)
Definition __init__ (getenv : string -> option string)
    (connection_string : option string) : exn + AzureBlobStorage :=
  let connection_string :=
    py_or connection_string (getenv "AZURE_STORAGE_CONNECTION_STRING") in
  if negb (truthy connection_string) then
    inl (ValueError "Azure Storage connection string is required")
  else
    match connection_string with
    | Some cs =>
        match BlobServiceClient_from_connection_string cs with
        | inl e => inl e
        | inr client =>
            inr {| connection_string := cs; blob_service_client := client |}
        end
    | None =>
        (* not reached: [None] is falsy *)
        inl (ValueError "Azure Storage connection string is required")
    end.

(** The object a successful construction yields for the credential
    [cs]: the credential and the client handle built from it. *)
Definition facade_for (cs : string) : exn + AzureBlobStorage :=
  match BlobServiceClient_from_connection_string cs with
  | inl e => inl e
  | inr client =>
      inr {| connection_string := cs; blob_service_client := client |}
  end.

Definition create_container (self : AzureBlobStorage)
    (container_name : string) : M W ContainerClient :=
  try_except
    (container_client <-
       BlobServiceClient_create_container (blob_service_client self)
         container_name;;
     ret container_client)
    is_ResourceExistsError
    (lift (BlobServiceClient_get_container_client (blob_service_client self)
             container_name)).

(** [overwrite: bool = True] is [None] when the caller leaves it out. *)
Definition upload_blob (self : AzureBlobStorage)
    (container_name blob_name : string) (data : bytes_or_str)
    (overwrite : option bool) : M W BlobClient :=
  let overwrite := default true overwrite in
  blob_client <-
    lift (BlobServiceClient_get_blob_client (blob_service_client self)
            container_name blob_name);;
  data <-
    match data with
    | Str s => lift (str_encode_utf8 s)
    | Bytes b => ret b
    end;;
  BlobClient_upload_blob blob_client data overwrite;;;
  ret blob_client.

Definition download_blob (self : AzureBlobStorage)
    (container_name blob_name : string) : M W bytes :=
  blob_client <-
    lift (BlobServiceClient_get_blob_client (blob_service_client self)
            container_name blob_name);;
  download_stream <- BlobClient_download_blob blob_client;;
  StorageStreamDownloader_readall download_stream.

(** [encoding: str = 'utf-8'] is [None] when the caller leaves it out. *)
Definition get_blob_as_text (self : AzureBlobStorage)
    (container_name blob_name : string) (encoding : option string)
    : M W text :=
  let encoding := default "utf-8" encoding in
  data <- download_blob self container_name blob_name;;
  lift (bytes_decode data encoding).

Definition blob_exists (self : AzureBlobStorage)
    (container_name blob_name : string) : M W bool :=
  try_except
    (blob_client <-
       lift (BlobServiceClient_get_blob_client (blob_service_client self)
               container_name blob_name);;
     BlobClient_get_blob_properties blob_client;;;
     ret true)
    is_ResourceNotFoundError
    (ret false).

Definition delete_blob (self : AzureBlobStorage)
    (container_name blob_name : string) : M W unit :=
  blob_client <-
    lift (BlobServiceClient_get_blob_client (blob_service_client self)
            container_name blob_name);;
  BlobClient_delete_blob blob_client.

Definition delete_container (self : AzureBlobStorage)
    (container_name : string) : M W unit :=
  BlobServiceClient_delete_container (blob_service_client self)
    container_name.

Definition list_blobs (self : AzureBlobStorage)
    (container_name : string) : M W (list string) :=
  container_client <-
    lift (BlobServiceClient_get_container_client (blob_service_client self)
            container_name);;
  blobs <- ContainerClient_list_blobs container_client;;
  ret (map name blobs).

End Facade.

(** The bytes [upload_blob] hands to the SDK for [data]: the bytes
    themselves, or the [utf-8] encoding of the text. *)
Definition content_bytes (data : bytes_or_str) : exn + bytes :=
  match data with
  | Str s => str_encode_utf8 s
  | Bytes b => inr b
  end.

(** ** Scripts of facade calls *)

(** One call of a method of the facade, with its arguments. *)
Inductive call :=
| CreateContainer (container_name : string)
| UploadBlob (container_name blob_name : string) (data : bytes_or_str)
    (overwrite : option bool)
| DownloadBlob (container_name blob_name : string)
| GetBlobAsText (container_name blob_name : string) (encoding : option string)
| BlobExists (container_name blob_name : string)
| DeleteBlob (container_name blob_name : string)
| DeleteContainer (container_name : string)
| ListBlobs (container_name : string).

Section Scripts.
Context {W : Type} {sdk : BlobSdk W} {codecs : PyCodecs}.

(** The account after one call, whether it returned or raised. *)
Definition run_call (self : AzureBlobStorage) (k : call) (w : W) : W :=
  match k with
  | CreateContainer c => (create_container self c w).2
  | UploadBlob c n data overwrite => (upload_blob self c n data overwrite w).2
  | DownloadBlob c n => (download_blob self c n w).2
  | GetBlobAsText c n encoding => (get_blob_as_text self c n encoding w).2
  | BlobExists c n => (blob_exists self c n w).2
  | DeleteBlob c n => (delete_blob self c n w).2
  | DeleteContainer c => (delete_container self c w).2
  | ListBlobs c => (list_blobs self c w).2
  end.

(** The account after a sequence of calls, each one's exception caught
    by the caller. *)
Definition run_script (self : AzureBlobStorage) (ks : list call) (w : W) : W :=
  fold_left (fun w k => run_call self k w) ks w.

End Scripts.

(** Is the call an upload to blob [n] of container [c]? *)
Definition uploads_to (c n : string) (k : call) : bool :=
  match k with
  | UploadBlob c' n' _ _ => String.eqb c c' && String.eqb n n'
  | _ => false
  end.

(** ** An in-memory storage account *)

Module InMemory.

(** Modelled from the spec: the remote account, which the repository
    only reaches through the SDK.  Containers are named and hold named
    blobs; a blob is its byte content; names are unique at both levels
    and are not validated. *)
Abbreviation account := (gmap string (gmap string bytes)).

(** Modelled from the spec: the content a blob handle addresses, with
    NotFound when the container or the blob is absent. *)
Definition find_blob (bc : BlobClient) (w : account) : exn + bytes :=
  match w !! blob_container bc with
  | None => inl (ResourceNotFoundError ContainerNotFound)
  | Some blobs =>
      match blobs !! blob_name bc with
      | None => inl (ResourceNotFoundError BlobNotFound)
      | Some content => inr content
      end
  end.

(** Modelled from the spec: the create-container request; an existing
    name is signalled as "already exists" and left as it is. *)
Definition create_container_request (_ : BlobServiceClient) (n : string)
    : M account ContainerClient :=
  fun w =>
    match w !! n with
    | Some _ => (inl (ResourceExistsError ContainerAlreadyExists), w)
    | None => (inr {| container_name := n |}, <[n := ∅]> w)
    end.

(** Modelled from the spec: the delete-container request removes the
    container and all contained blobs, NotFound if absent. *)
Definition delete_container_request (_ : BlobServiceClient) (n : string)
    : M account unit :=
  fun w =>
    match w !! n with
    | Some _ => (inr tt, delete n w)
    | None => (inl (ResourceNotFoundError ContainerNotFound), w)
    end.

(** Modelled from the spec: the upload request; a conflict error when
    the blob exists and overwriting was not asked for.  Containers are
    only created explicitly, so an absent container is NotFound. *)
Definition upload_request (bc : BlobClient) (data : bytes) (overwrite : bool)
    : M account unit :=
  fun w =>
    match w !! blob_container bc with
    | None => (inl (ResourceNotFoundError ContainerNotFound), w)
    | Some blobs =>
        if negb overwrite && bool_decide (is_Some (blobs !! blob_name bc))
        then (inl (ResourceExistsError BlobAlreadyExists), w)
        else (inr tt, <[blob_container bc := <[blob_name bc := data]> blobs]> w)
    end.

(** Modelled from the spec: the download request answers the full
    content of the blob, NotFound if blob or container is absent. *)
Definition download_request (bc : BlobClient) : M account bytes :=
  fun w => (find_blob bc w, w).

(** Modelled from the spec: reading a download to its end gives the
    content the download request answered. *)
Definition readall_stream (stream : bytes) : M account bytes :=
  ret stream.

(** Modelled from the spec: the properties request succeeds exactly
    when the blob is there. *)
Definition properties_request (bc : BlobClient) : M account BlobProperties :=
  fun w =>
    match find_blob bc w with
    | inl e => (inl e, w)
    | inr content =>
        (inr {| name := blob_name bc; size := length content |}, w)
    end.

(** Modelled from the spec: the delete-blob request, NotFound if the
    blob is absent. *)
Definition delete_blob_request (bc : BlobClient) : M account unit :=
  fun w =>
    match w !! blob_container bc with
    | None => (inl (ResourceNotFoundError ContainerNotFound), w)
    | Some blobs =>
        match blobs !! blob_name bc with
        | None => (inl (ResourceNotFoundError BlobNotFound), w)
        | Some _ =>
            (inr tt, <[blob_container bc := delete (blob_name bc) blobs]> w)
        end
    end.

(** Modelled from the spec: the listing request, in the order the
    account keeps, NotFound if the container is absent. *)
Definition list_blobs_request (cc : ContainerClient)
    : M account (list BlobProperties) :=
  fun w =>
    match w !! container_name cc with
    | None => (inl (ResourceNotFoundError ContainerNotFound), w)
    | Some blobs =>
        (inr (map (fun entry => {| name := entry.1; size := length entry.2 |})
                (map_to_list blobs)), w)
    end.

(** Modelled from the spec: handles are obtained by name, locally. *)
#[export] Instance sdk : BlobSdk account := {|
  StorageStreamDownloader := bytes;
  BlobServiceClient_from_connection_string cs := inr {| credential := cs |};
  BlobServiceClient_get_container_client _ n := inr {| container_name := n |};
  BlobServiceClient_get_blob_client _ c n :=
    inr {| blob_container := c; blob_name := n |};
  BlobServiceClient_create_container := create_container_request;
  BlobServiceClient_delete_container := delete_container_request;
  BlobClient_upload_blob := upload_request;
  BlobClient_download_blob := download_request;
  StorageStreamDownloader_readall := readall_stream;
  BlobClient_get_blob_properties := properties_request;
  BlobClient_delete_blob := delete_blob_request;
  ContainerClient_list_blobs := list_blobs_request
|}.

(** No container, no blob. *)
Definition blob_absent (c n : string) (w : account) : Prop :=
  w !! c ≫= (.!! n) = None.

End InMemory.

(** A registry with the three decoders the examples use. *)
Definition ascii_decode (b : bytes) : option text :=
  if forallb (fun x => (Byte.to_N x <? 0x80)%N) b
  then Some (map Byte.to_N b) else None.

Definition latin1_decode (b : bytes) : option text := Some (map Byte.to_N b).

Definition builtin_codecs : PyCodecs := {|
  lookup_decoder encoding :=
    if String.eqb encoding "utf-8" then Some utf8_decode
    else if String.eqb encoding "ascii" then Some ascii_decode
    else if String.eqb encoding "latin-1" then Some latin1_decode
    else None
|}.

(** An SDK whose account cannot be reached: handles are obtained as usual,
    every request raises [failure] (a network or authentication error,
    or an interrupt). *)
Definition unreachable_sdk (failure : exn) : BlobSdk unit := {|
  StorageStreamDownloader := unit;
  BlobServiceClient_from_connection_string cs := inr {| credential := cs |};
  BlobServiceClient_get_container_client _ n := inr {| container_name := n |};
  BlobServiceClient_get_blob_client _ c n :=
    inr {| blob_container := c; blob_name := n |};
  BlobServiceClient_create_container _ _ := raise failure;
  BlobServiceClient_delete_container _ _ := raise failure;
  BlobClient_upload_blob _ _ _ := raise failure;
  BlobClient_download_blob _ := raise failure;
  StorageStreamDownloader_readall _ := raise failure;
  BlobClient_get_blob_properties _ := raise failure;
  BlobClient_delete_blob _ := raise failure;
  ContainerClient_list_blobs _ := raise failure
|}.

(** The configuration error of [__init__]. *)
Definition missing_credential : exn :=
  ValueError "Azure Storage connection string is required".

(** An environment where only [AZURE_STORAGE_CONNECTION_STRING] is set. *)
Definition env_with (value : string) (variable : string) : option string :=
  if String.eqb variable "AZURE_STORAGE_CONNECTION_STRING"
  then Some value else None.

(** The facade object the examples call: any credential will do for the
    in-memory account. *)
Definition example_self : AzureBlobStorage :=
  {| connection_string := "UseDevelopmentStorage=true";
     blob_service_client := {| credential := "UseDevelopmentStorage=true" |} |}.

(** An account with one container, ["t1"], holding the blob ["f.txt"]
    with content [b"hello"]. *)
Definition example_account : InMemory.account :=
  {[ "t1" := {[ "f.txt" := String.list_byte_of_string "hello" ]} ]}.

(** The binary content of the test suite: zero octets included. *)
Definition binary_example : bytes :=
  String.list_byte_of_string "Binary data " ++ [x00; x01; x02; x03].

(** A text with one code point of each [utf-8] length and a zero. *)
Definition text_example : text := [0x48; 0xE9; 0x20AC; 0x1F600; 0]%N.


(** ASCII literals as [str] content. *)
Definition text_of_string (s : string) : text :=
  map Byte.to_N (String.list_byte_of_string s).

(** A script that never uploads to ["exists-test.txt"] of ["t1"]. *)
Definition example_script : list call :=
  [ CreateContainer "t1";
    BlobExists "t1" "exists-test.txt";
    UploadBlob "t1" "other.txt" (Str (text_of_string "test data")) None;
    UploadBlob "t2" "exists-test.txt" (Bytes binary_example) None;
    DeleteBlob "t1" "exists-test.txt";
    GetBlobAsText "t1" "other.txt" None;
    ListBlobs "t1";
    CreateContainer "t1" ].

(** ** The test suite: fixtures and loops of [tests/test_blob_storage.py] *)


Section Tests.
Context {W : Type} {sdk : BlobSdk W}.
Local Open Scope py_scope.


(** Names are kept as [string]; [name_chars] gives the code points of the
    [str] a name stands for, which the f-string of the loop copies into
    the content. *)
Variable name_chars : string -> text.

(** The loop of [test_list_blobs]:
    [for blob_name in blob_names: upload_blob(..., f"Content of {blob_name}")]. *)
Fixpoint upload_each (blob_storage : AzureBlobStorage)
    (test_container_name : string) (blob_names : list string) : M W unit :=
  match blob_names with
  | [] => ret tt
  | blob_name :: blob_names =>
      upload_blob blob_storage test_container_name blob_name
        (Str (text_of_string "Content of " ++ name_chars blob_name)) None;;;
      upload_each blob_storage test_container_name blob_names
  end.

(** [test_list_blobs] up to its assertions, for any [blob_names]: the
    listing the assertions are about. *)
Definition test_list_blobs (blob_storage : AzureBlobStorage)
    (test_container_name : string) (blob_names : list string)
    : M W (list string) :=
  create_container blob_storage test_container_name;;;
  upload_each blob_storage test_container_name blob_names;;;
  listed_blobs <- list_blobs blob_storage test_container_name;;
  ret listed_blobs.

End Tests.

(** * Properties *)

(** ** The computation combinators *)

Section Combinators.
Context {W A B : Type}.

Lemma bind_ok (m : M W A) (k : A -> M W B) w a w' :
  m w = (inr a, w') -> bind m k w = k a w'.
Proof. intros Hm. unfold bind. now rewrite Hm. Qed.

Lemma bind_raises (m : M W A) (k : A -> M W B) w e w' :
  m w = (inl e, w') -> bind m k w = (inl e, w').
Proof. intros Hm. unfold bind. now rewrite Hm. Qed.

Lemma bind_lift_ok (r : exn + A) (k : A -> M W B) w a :
  r = inr a -> bind (lift r) k w = k a w.
Proof. now intros ->. Qed.

Lemma bind_lift_raises (r : exn + A) (k : A -> M W B) w e :
  r = inl e -> bind (lift r) k w = (inl e, w).
Proof. now intros ->. Qed.

Lemma try_except_ok (body handler : M W A) catches w a w' :
  body w = (inr a, w') -> try_except body catches handler w = (inr a, w').
Proof. intros Hb. unfold try_except. now rewrite Hb. Qed.

Lemma try_except_caught (body handler : M W A) catches w e w' :
  body w = (inl e, w') -> catches e = true ->
  try_except body catches handler w = handler w'.
Proof. intros Hb Hc. unfold try_except. now rewrite Hb, Hc. Qed.

Lemma try_except_passed (body handler : M W A) catches w e w' :
  body w = (inl e, w') -> catches e = false ->
  try_except body catches handler w = (inl e, w').
Proof. intros Hb Hc. unfold try_except. now rewrite Hb, Hc. Qed.

End Combinators.

Lemma preserves_ret {W A} (a : A) : preserves (ret (W:=W) a).
Proof. now intros w. Qed.

Lemma preserves_lift {W A} (r : exn + A) : preserves (lift (W:=W) r).
Proof. now intros w. Qed.

Lemma preserves_bind {W A B} (m : M W A) (k : A -> M W B) :
  preserves m -> (forall a, preserves (k a)) -> preserves (bind m k).
Proof.
  intros Hm Hk w. unfold bind. specialize (Hm w).
  destruct (m w) as [[e | a] w1]; simpl in *; subst; [reflexivity | apply Hk].
Qed.

Lemma preserves_try_except {W A} (body handler : M W A) catches :
  preserves body -> preserves handler ->
  preserves (try_except body catches handler).
Proof.
  intros Hb Hh w. unfold try_except. specialize (Hb w).
  destruct (body w) as [[e | a] w1]; simpl in *; subst; [| reflexivity].
  destruct (catches e); [apply Hh | reflexivity].
Qed.

Create HintDb preserves.

#[global] Hint Resolve preserves_ret preserves_lift preserves_bind
  preserves_try_except : preserves.

Lemma truthy_Some s : truthy (Some s) = true <-> s <> "".
Proof.
  simpl. destruct (String.eqb_spec s ""); simpl; split; congruence.
Qed.

Lemma truthy_false x : truthy x = false <-> x = None \/ x = Some "".
Proof.
  destruct x as [s |]; simpl.
  - destruct (String.eqb_spec s ""); simpl; split; intros H;
      try subst; auto; try discriminate.
    destruct H as [H | H]; congruence.
  - split; auto.
Qed.

(** ** The [utf-8] codec

    Decoding undoes encoding: what [utf8_encode] produces is well-formed
    [utf-8], and it determines the text. *)
Lemma to_N_byte_of_N n : (n < 256)%N -> Byte.to_N (byte_of_N n) = n.
Proof.
  intros Hn. unfold byte_of_N.
  destruct (Byte.of_N n) as [b |] eqn:Hb; simpl.
  - now apply Byte.to_of_N.
  - apply Byte.of_N_None_iff in Hb. lia.
Qed.

(** A property of the numbers below a bound, checked one by one. *)
Lemma below_forallb (P : N -> bool) (bound : nat) :
  forallb P (map N.of_nat (seq 0 bound)) = true ->
  forall x, (x < N.of_nat bound)%N -> P x = true.
Proof.
  intros Hall x Hx. rewrite forallb_forall in Hall. apply Hall.
  apply in_map_iff. exists (N.to_nat x). split; [apply N2Nat.id |].
  apply in_seq. lia.
Qed.

Lemma lead_byte (tag mask : N) (width : nat) :
  forallb (fun a => (N.lor tag a =? tag + a)%N && (N.land (tag + a) mask =? a)%N)
    (map N.of_nat (seq 0 width)) = true ->
  forall a, (a < N.of_nat width)%N ->
    N.lor tag a = (tag + a)%N /\ N.land (tag + a) mask = a.
Proof.
  intros Hall a Ha. apply (below_forallb _ _ Hall) in Ha.
  apply andb_true_iff in Ha as [H1 H2].
  now apply N.eqb_eq in H1, H2.
Qed.

Lemma tag_80 a :
  (a < 64)%N -> N.lor 0x80 a = (0x80 + a)%N /\ N.land (0x80 + a) 0x3F = a.
Proof. apply (lead_byte 0x80 0x3F 64). reflexivity. Qed.

Lemma tag_C0 a :
  (a < 32)%N -> N.lor 0xC0 a = (0xC0 + a)%N /\ N.land (0xC0 + a) 0x1F = a.
Proof. apply (lead_byte 0xC0 0x1F 32). reflexivity. Qed.

Lemma tag_E0 a :
  (a < 16)%N -> N.lor 0xE0 a = (0xE0 + a)%N /\ N.land (0xE0 + a) 0x0F = a.
Proof. apply (lead_byte 0xE0 0x0F 16). reflexivity. Qed.

Lemma tag_F0 a :
  (a < 8)%N -> N.lor 0xF0 a = (0xF0 + a)%N /\ N.land (0xF0 + a) 0x07 = a.
Proof. apply (lead_byte 0xF0 0x07 8). reflexivity. Qed.

Lemma shiftr_div c k : N.shiftr c k = (c / 2 ^ k)%N.
Proof. apply N.shiftr_div_pow2. Qed.

Lemma land_low6 c : N.land c 0x3F = (c mod 64)%N.
Proof. change 0x3F%N with (N.ones 6). now rewrite N.land_ones. Qed.


Lemma recompose c k :
  N.lor (N.shiftl (N.shiftr c k) k) (N.land c (N.ones k)) = c.
Proof. rewrite <- N.ldiff_ones_r. apply N.lor_ldiff_and. Qed.

Lemma shiftr_below c k bound :
  (c < bound * 2 ^ k)%N -> (N.shiftr c k < bound)%N.
Proof.
  intros Hc. rewrite shiftr_div. apply N.Div0.div_lt_upper_bound. lia.
Qed.

Lemma land_below c k : (N.land c (N.ones k) < 2 ^ k)%N.
Proof. rewrite N.land_ones. apply N.mod_lt. apply N.pow_nonzero. lia. Qed.

Lemma continuation_tagged lo hi p :
  (p < 64)%N -> (lo <= 0x80 + p)%N -> (0x80 + p <= hi)%N ->
  continuation lo hi (byte_of_N (N.lor 0x80 p)) = Some p.
Proof.
  intros Hp Hlo Hhi. destruct (tag_80 p Hp) as [Hor Hand].
  unfold continuation. rewrite Hor, to_N_byte_of_N by lia. simpl.
  rewrite Hand.
  replace (lo <=? 0x80 + p)%N with true by (symmetry; apply N.leb_le; lia).
  replace (0x80 + p <=? hi)%N with true by (symmetry; apply N.leb_le; lia).
  reflexivity.
Qed.

Lemma utf8_decode_cons_1 c rest :
  (c < 0x80)%N ->
  utf8_decode (byte_of_N c :: rest) = cons c <$> utf8_decode rest.
Proof.
  intros Hc. cbn [utf8_decode]. rewrite to_N_byte_of_N by lia.
  cbv zeta.
  now replace (c <? 0x80)%N with true by (symmetry; apply N.ltb_lt; lia).
Qed.

Lemma utf8_decode_cons_2 c rest :
  (0x80 <= c)%N -> (c < 0x800)%N ->
  utf8_decode (byte_of_N (N.lor 0xC0 (N.shiftr c 6))
               :: byte_of_N (N.lor 0x80 (N.land c 0x3F)) :: rest)
  = cons c <$> utf8_decode rest.
Proof.
  intros Hlo Hhi.
  assert (Hh : (N.shiftr c 6 < 32)%N) by (apply shiftr_below; simpl; lia).
  assert (Hh2 : (2 <= N.shiftr c 6)%N).
  { rewrite shiftr_div. apply N.div_le_lower_bound; simpl; lia. }
  pose proof (land_below c 6) as Hl. change (N.ones 6) with 0x3F%N in Hl.
  destruct (tag_C0 _ Hh) as [Hor Hand].
  cbn [utf8_decode]. rewrite Hor, to_N_byte_of_N by lia. cbv zeta.
  replace (0xC0 + N.shiftr c 6 <? 0x80)%N with false
    by (symmetry; apply N.ltb_ge; lia).
  replace (0xC0 + N.shiftr c 6 <? 0xC2)%N with false
    by (symmetry; apply N.ltb_ge; lia).
  replace (0xC0 + N.shiftr c 6 <? 0xE0)%N with true
    by (symmetry; apply N.ltb_lt; lia).
  rewrite continuation_tagged by (simpl in *; lia).
  rewrite Hand. change 0x3F%N with (N.ones 6). now rewrite recompose.
Qed.

Lemma recompose_middle c j k :
  N.lor (N.shiftl (N.land (N.shiftr c j) (N.ones k)) j) (N.land c (N.ones j))
  = N.land c (N.ones (j + k)).
Proof.
  apply N.bits_inj. intros i.
  rewrite N.lor_spec, !N.land_spec.
  destruct (N.ltb_spec i j) as [Hlt | Hge].
  - rewrite N.shiftl_spec_low by exact Hlt.
    rewrite !N.ones_spec_low by lia. reflexivity.
  - rewrite N.shiftl_spec_high' by exact Hge.
    rewrite N.land_spec, N.shiftr_spec'.
    replace (i - j + j)%N with i by lia.
    rewrite (N.ones_spec_high j i) by exact Hge.
    rewrite andb_false_r, orb_false_r. f_equal.
    destruct (N.ltb_spec i (j + k)) as [Hin | Hout].
    + rewrite !N.ones_spec_low by lia. reflexivity.
    + rewrite !N.ones_spec_high by lia. reflexivity.
Qed.

Lemma sextets c :
  c = (4096 * N.shiftr c 12 + 64 * N.land (N.shiftr c 6) 0x3F
       + N.land c 0x3F)%N
  /\ N.shiftr c 12 = (64 * N.shiftr c 18 + N.land (N.shiftr c 12) 0x3F)%N
  /\ (N.land (N.shiftr c 12) 0x3F < 64)%N
  /\ (N.land (N.shiftr c 6) 0x3F < 64)%N
  /\ (N.land c 0x3F < 64)%N.
Proof.
  rewrite !land_low6, !shiftr_div.
  change (2 ^ 6)%N with 64%N. change (2 ^ 12)%N with (64 * 64)%N.
  change (2 ^ 18)%N with (64 * 64 * 64)%N.
  rewrite <- !N.Div0.div_div.
  pose proof (N.div_mod' c 64). pose proof (N.div_mod' (c / 64) 64).
  pose proof (N.div_mod' (c / 64 / 64) 64).
  pose proof (N.mod_lt c 64). pose proof (N.mod_lt (c / 64) 64).
  pose proof (N.mod_lt (c / 64 / 64) 64).
  lia.
Qed.

Lemma utf8_decode_cons_3 c rest :
  (0x800 <= c)%N -> (c < 0x10000)%N -> is_surrogate c = false ->
  utf8_decode (byte_of_N (N.lor 0xE0 (N.shiftr c 12))
               :: byte_of_N (N.lor 0x80 (N.land (N.shiftr c 6) 0x3F))
               :: byte_of_N (N.lor 0x80 (N.land c 0x3F)) :: rest)
  = cons c <$> utf8_decode rest.
Proof.
  intros Hlo Hhi Hsur.
  assert (Hh : (N.shiftr c 12 < 16)%N) by (apply shiftr_below; simpl; lia).
  destruct (sextets c) as (Hc & _ & _ & Hm & Hl).
  assert (Hnot : (c < 0xD800 \/ 0xDFFF < c)%N).
  { unfold is_surrogate in Hsur. apply andb_false_iff in Hsur.
    destruct Hsur as [H | H]; apply N.leb_gt in H; lia. }
  destruct (tag_E0 _ Hh) as [Hor Hand].
  cbn [utf8_decode]. rewrite Hor, to_N_byte_of_N by lia. cbv zeta.
  replace (0xE0 + N.shiftr c 12 <? 0x80)%N with false
    by (symmetry; apply N.ltb_ge; lia).
  replace (0xE0 + N.shiftr c 12 <? 0xC2)%N with false
    by (symmetry; apply N.ltb_ge; lia).
  replace (0xE0 + N.shiftr c 12 <? 0xE0)%N with false
    by (symmetry; apply N.ltb_ge; lia).
  replace (0xE0 + N.shiftr c 12 <? 0xF0)%N with true
    by (symmetry; apply N.ltb_lt; lia).
  rewrite (continuation_tagged _ _ (N.land (N.shiftr c 6) 0x3F)); cycle 1.
  { exact Hm. }
  { destruct (N.eqb_spec (0xE0 + N.shiftr c 12) 0xE0); lia. }
  { destruct (N.eqb_spec (0xE0 + N.shiftr c 12) 0xED); lia. }
  rewrite continuation_tagged by lia.
  rewrite Hand. change 0x3F%N with (N.ones 6).
  rewrite (recompose_middle c 6 6). change (6 + 6)%N with 12%N.
  now rewrite recompose.
Qed.

Lemma utf8_decode_cons_4 c rest :
  (0x10000 <= c)%N -> (c < 0x110000)%N ->
  utf8_decode (byte_of_N (N.lor 0xF0 (N.shiftr c 18))
               :: byte_of_N (N.lor 0x80 (N.land (N.shiftr c 12) 0x3F))
               :: byte_of_N (N.lor 0x80 (N.land (N.shiftr c 6) 0x3F))
               :: byte_of_N (N.lor 0x80 (N.land c 0x3F)) :: rest)
  = cons c <$> utf8_decode rest.
Proof.
  intros Hlo Hhi.
  assert (Hh : (N.shiftr c 18 < 5)%N) by (apply shiftr_below; simpl; lia).
  destruct (sextets c) as (Hc & Hc' & Hm1 & Hm2 & Hl).
  assert (Hh8 : (N.shiftr c 18 < 8)%N) by lia.
  destruct (tag_F0 _ Hh8) as [Hor Hand].
  cbn [utf8_decode]. rewrite Hor, to_N_byte_of_N by lia. cbv zeta.
  replace (0xF0 + N.shiftr c 18 <? 0x80)%N with false
    by (symmetry; apply N.ltb_ge; lia).
  replace (0xF0 + N.shiftr c 18 <? 0xC2)%N with false
    by (symmetry; apply N.ltb_ge; lia).
  replace (0xF0 + N.shiftr c 18 <? 0xE0)%N with false
    by (symmetry; apply N.ltb_ge; lia).
  replace (0xF0 + N.shiftr c 18 <? 0xF0)%N with false
    by (symmetry; apply N.ltb_ge; lia).
  replace (0xF0 + N.shiftr c 18 <? 0xF5)%N with true
    by (symmetry; apply N.ltb_lt; lia).
  rewrite (continuation_tagged _ _ (N.land (N.shiftr c 12) 0x3F)); cycle 1.
  { exact Hm1. }
  { destruct (N.eqb_spec (0xF0 + N.shiftr c 18) 0xF0); lia. }
  { destruct (N.eqb_spec (0xF0 + N.shiftr c 18) 0xF4); lia. }
  rewrite !continuation_tagged by lia.
  rewrite Hand. change 0x3F%N with (N.ones 6).
  rewrite (recompose_middle c 6 6). change (6 + 6)%N with 12%N.
  rewrite (recompose_middle c 12 6). change (12 + 6)%N with 18%N.
  now rewrite recompose.
Qed.

Lemma utf8_decode_encode_char c b rest :
  utf8_encode_char c = Some b ->
  utf8_decode (b ++ rest) = cons c <$> utf8_decode rest.
Proof.
  unfold utf8_encode_char.
  destruct (N.ltb_spec c 0x80); [intros [= <-]; now apply utf8_decode_cons_1 |].
  destruct (N.ltb_spec c 0x800); [intros [= <-]; now apply utf8_decode_cons_2 |].
  destruct (N.ltb_spec c 0x10000).
  { destruct (is_surrogate c) eqn:Hsur; [discriminate |].
    intros [= <-]. now apply utf8_decode_cons_3. }
  destruct (N.ltb_spec c 0x110000); [| discriminate].
  intros [= <-]. now apply utf8_decode_cons_4.
Qed.

(** X13. The bytes [upload_blob] makes of a text with [encode('utf-8')]
    are well-formed [utf-8] and decode, strictly, to that text again: no
    two texts are uploaded as the same bytes. *)
Lemma utf8_decode_encode s b : utf8_encode s = Some b -> utf8_decode b = Some s.
Proof.
  revert b. induction s as [| c s IH]; intros b; simpl.
  - now intros [= <-].
  - destruct (utf8_encode_char c) as [bc |] eqn:Hc; [| discriminate].
    destruct (utf8_encode s) as [bs |]; [| discriminate].
    intros [= <-]. rewrite (utf8_decode_encode_char c bc bs Hc).
    now rewrite (IH bs eq_refl).
Qed.

(** ** Construction *)

Section Construction.
Context {W : Type} {sdk : BlobSdk W}.
Variable getenv : string -> option string.

Lemma init_truthy cs s :
  py_or cs (getenv "AZURE_STORAGE_CONNECTION_STRING") = Some s -> s <> "" ->
  __init__ getenv cs = facade_for s.
Proof.
  intros Hor Hs. unfold __init__. rewrite Hor.
  apply truthy_Some in Hs. now rewrite Hs.
Qed.

Lemma init_falsy cs :
  truthy (py_or cs (getenv "AZURE_STORAGE_CONNECTION_STRING")) = false ->
  __init__ getenv cs = inl missing_credential.
Proof. intros Hor. unfold __init__. now rewrite Hor. Qed.

(** C4. Construction uses the explicit credential when one is given; with
    none given it uses the value of [AZURE_STORAGE_CONNECTION_STRING];
    with neither it raises the missing-credential [ValueError]. In the
    first two cases the outcome is the object holding the client handle
    that [BlobServiceClient.from_connection_string] builds on the spot.
    Construction is a function of its argument and the environment
    alone: it takes no account state, so it sends no request. *)
Theorem init_credential_resolution :
  (forall s, s <> "" -> __init__ getenv (Some s) = facade_for s)
  /\ (forall e, getenv "AZURE_STORAGE_CONNECTION_STRING" = Some e ->
        e <> "" -> __init__ getenv None = facade_for e)
  /\ (getenv "AZURE_STORAGE_CONNECTION_STRING" = None
      \/ getenv "AZURE_STORAGE_CONNECTION_STRING" = Some "" ->
      __init__ getenv None = inl missing_credential).
Proof.
  split; [| split].
  - intros s Hs. apply init_truthy; [| exact Hs].
    unfold py_or. apply truthy_Some in Hs. now rewrite Hs.
  - intros e He Hne. apply init_truthy; [| exact Hne]. exact He.
  - intros Henv. apply init_falsy. apply truthy_false. exact Henv.
Qed.

(** C9. An explicit credential that is the empty string counts as no
    credential: construction behaves as with [None], taking the
    environment variable when that is non-empty and raising the
    missing-credential [ValueError] when it is unset or empty. *)
Theorem init_empty_credential_is_falsy :
  __init__ getenv (Some "") = __init__ getenv None
  /\ (forall e, getenv "AZURE_STORAGE_CONNECTION_STRING" = Some e ->
        e <> "" -> __init__ getenv (Some "") = facade_for e)
  /\ (getenv "AZURE_STORAGE_CONNECTION_STRING" = None
      \/ getenv "AZURE_STORAGE_CONNECTION_STRING" = Some "" ->
      __init__ getenv (Some "") = inl missing_credential).
Proof.
  split; [reflexivity | split].
  - intros e He Hne. apply init_truthy; [| exact Hne]. exact He.
  - intros Henv. apply init_falsy. apply truthy_false. exact Henv.
Qed.

End Construction.

Lemma init_credential_resolution_witness :
  ("key" <> "" /\
   __init__ (sdk:=InMemory.sdk) (fun _ => None) (Some "key") = facade_for (sdk:=InMemory.sdk) "key")
  /\ (env_with "env-key" "AZURE_STORAGE_CONNECTION_STRING" = Some "env-key"
      /\ "env-key" <> ""
      /\ __init__ (sdk:=InMemory.sdk) (env_with "env-key") None
         = facade_for (sdk:=InMemory.sdk) "env-key")
  /\ ((env_with "" "AZURE_STORAGE_CONNECTION_STRING" = None
       \/ env_with "" "AZURE_STORAGE_CONNECTION_STRING" = Some "")
      /\ __init__ (sdk:=InMemory.sdk) (env_with "") None
         = inl missing_credential).
Proof.
  split; [| split].
  - split; [discriminate |].
    apply (init_credential_resolution (sdk:=InMemory.sdk) (fun _ => None)).
    discriminate.
  - split; [reflexivity | split; [discriminate |]].
    apply (init_credential_resolution (sdk:=InMemory.sdk) (env_with "env-key"));
      [reflexivity | discriminate].
  - split; [right; reflexivity |].
    apply (init_credential_resolution (sdk:=InMemory.sdk) (env_with "")).
    right; reflexivity.
Defined.

Lemma init_empty_credential_is_falsy_witness :
  (env_with "env-key" "AZURE_STORAGE_CONNECTION_STRING" = Some "env-key"
   /\ "env-key" <> ""
   /\ __init__ (sdk:=InMemory.sdk) (env_with "env-key") (Some "")
      = facade_for (sdk:=InMemory.sdk) "env-key")
  /\ (((fun _ : string => @None string) "AZURE_STORAGE_CONNECTION_STRING" = None
       \/ (fun _ : string => @None string) "AZURE_STORAGE_CONNECTION_STRING"
          = Some "")
      /\ __init__ (sdk:=InMemory.sdk) (fun _ => None) (Some "")
         = inl missing_credential).
Proof.
  split.
  - split; [reflexivity | split; [discriminate |]].
    apply (init_empty_credential_is_falsy (sdk:=InMemory.sdk)
             (env_with "env-key")); [reflexivity | discriminate].
  - split; [left; reflexivity |].
    apply (init_empty_credential_is_falsy (sdk:=InMemory.sdk) (fun _ => None)).
    left; reflexivity.
Defined.


(** ** The in-memory account *)

Section InMemoryFacts.
Import InMemory.
Implicit Types (w : account) (c n : string) (bc : BlobClient).

Lemma find_blob_absent c n w :
  blob_absent c n w ->
  exists code,
    find_blob {| blob_container := c; blob_name := n |} w
    = inl (ResourceNotFoundError code).
Proof.
  unfold blob_absent, find_blob. simpl.
  destruct (w !! c) as [blobs |]; simpl; [| eauto].
  intros ->. eauto.
Qed.

Lemma find_blob_present c n w content :
  find_blob {| blob_container := c; blob_name := n |} w = inr content <->
  exists blobs, w !! c = Some blobs /\ blobs !! n = Some content.
Proof.
  unfold find_blob. simpl. split.
  - destruct (w !! c) as [blobs |]; [| discriminate].
    destruct (blobs !! n) eqn:Hn; [| discriminate].
    intros [= ->]. eauto.
  - intros (blobs & -> & ->). reflexivity.
Qed.

Lemma blob_absent_iff c n w :
  blob_absent c n w <->
  forall content,
    find_blob {| blob_container := c; blob_name := n |} w <> inr content.
Proof.
  unfold blob_absent, find_blob. simpl.
  destruct (w !! c) as [blobs |]; simpl; [| split; [discriminate | reflexivity]].
  destruct (blobs !! n); split; try congruence.
  intros H. now destruct (H l).
Qed.

End InMemoryFacts.

(** ** Existence checks *)

Section Exists.
Context {W : Type} {sdk : BlobSdk W}.
Variables (self : AzureBlobStorage) (c n : string).

Lemma blob_exists_never_not_found w code w' :
  blob_exists self c n w <> (inl (ResourceNotFoundError code), w').
Proof.
  unfold blob_exists, try_except, bind, lift, ret.
  destruct (BlobServiceClient_get_blob_client _ c n) as [e | bc].
  - destruct e; simpl; congruence.
  - destruct (BlobClient_get_blob_properties bc w) as [[e | p] w1];
      [destruct e |]; simpl; congruence.
Qed.

Lemma blob_exists_outcome bc w :
  BlobServiceClient_get_blob_client (blob_service_client self) c n = inr bc ->
  blob_exists self c n w =
    match BlobClient_get_blob_properties bc w with
    | (inr _, w') => (inr true, w')
    | (inl e, w') =>
        if is_ResourceNotFoundError e then (inr false, w') else (inl e, w')
    end.
Proof.
  intros Hbc. unfold blob_exists, try_except, bind, lift, ret. rewrite Hbc.
  now destruct (BlobClient_get_blob_properties bc w) as [[e | p] w1].
Qed.

Lemma blob_exists_no_handle e w :
  BlobServiceClient_get_blob_client (blob_service_client self) c n = inl e ->
  blob_exists self c n w =
    if is_ResourceNotFoundError e then (inr false, w) else (inl e, w).
Proof.
  intros Hbc. unfold blob_exists, try_except, bind, lift, ret.
  now rewrite Hbc.
Qed.

End Exists.

Lemma blob_exists_in_memory self c n (w : InMemory.account) :
  blob_exists (sdk:=InMemory.sdk) self c n w =
    (inr match InMemory.find_blob {| blob_container := c; blob_name := n |} w
         with inl _ => false | inr _ => true end, w).
Proof.
  rewrite (blob_exists_outcome (sdk:=InMemory.sdk) self c n
             {| blob_container := c; blob_name := n |}) by reflexivity.
  simpl. unfold InMemory.properties_request.
  destruct (InMemory.find_blob _ w) as [e | content] eqn:Hfind; [| reflexivity].
  unfold InMemory.find_blob in Hfind. simpl in Hfind.
  destruct (w !! c) as [blobs |]; [destruct (blobs !! n) |];
    now inversion Hfind.
Qed.

Lemma blob_exists_absent self c n (w : InMemory.account) :
  InMemory.blob_absent c n w ->
  blob_exists (sdk:=InMemory.sdk) self c n w = (inr false, w).
Proof.
  intros Habs. rewrite blob_exists_in_memory.
  destruct (find_blob_absent c n w Habs) as [code ->]. reflexivity.
Qed.

(** C2. [blob_exists] never raises [ResourceNotFoundError]. When the
    properties request of the SDK raises it, the answer is [False]; when
    the request returns the properties, the answer is [True]; any other
    exception, from the request or from obtaining the handle, reaches the
    caller as it was raised, with the account as the SDK left it. On the
    in-memory account a missing blob and a missing container both answer
    [False]. *)
Theorem blob_exists_translates_not_found :
  (forall W (sdk : BlobSdk W) (self : AzureBlobStorage) (c n : string) (w : W),
      (forall code w',
          blob_exists self c n w <> (inl (ResourceNotFoundError code), w'))
      /\ (forall bc code w',
             BlobServiceClient_get_blob_client (blob_service_client self) c n
             = inr bc ->
             BlobClient_get_blob_properties bc w
             = (inl (ResourceNotFoundError code), w') ->
             blob_exists self c n w = (inr false, w'))
      /\ (forall bc properties w',
             BlobServiceClient_get_blob_client (blob_service_client self) c n
             = inr bc ->
             BlobClient_get_blob_properties bc w = (inr properties, w') ->
             blob_exists self c n w = (inr true, w'))
      /\ (forall bc e w',
             BlobServiceClient_get_blob_client (blob_service_client self) c n
             = inr bc ->
             BlobClient_get_blob_properties bc w = (inl e, w') ->
             is_ResourceNotFoundError e = false ->
             blob_exists self c n w = (inl e, w'))
      /\ (forall e,
             BlobServiceClient_get_blob_client (blob_service_client self) c n
             = inl e ->
             is_ResourceNotFoundError e = false ->
             blob_exists self c n w = (inl e, w)))
  /\ (forall (self : AzureBlobStorage) (c n : string) (w : InMemory.account),
         InMemory.blob_absent c n w ->
         blob_exists (sdk:=InMemory.sdk) self c n w = (inr false, w)).
Proof.
  split; [| exact blob_exists_absent].
  intros W sdk self c n w. repeat split.
  - apply blob_exists_never_not_found.
  - intros bc code w' Hbc Hreq.
    now rewrite (blob_exists_outcome self c n bc w Hbc), Hreq.
  - intros bc properties w' Hbc Hreq.
    now rewrite (blob_exists_outcome self c n bc w Hbc), Hreq.
  - intros bc e w' Hbc Hreq He.
    now rewrite (blob_exists_outcome self c n bc w Hbc), Hreq, He.
  - intros e Hbc He.
    now rewrite (blob_exists_no_handle self c n e w Hbc), He.
Qed.

Lemma blob_exists_translates_not_found_witness :
  (BlobClient_get_blob_properties (BlobSdk:=InMemory.sdk)
     {| blob_container := "t1"; blob_name := "g.txt" |} example_account
   = (inl (ResourceNotFoundError BlobNotFound), example_account)
   /\ blob_exists (sdk:=InMemory.sdk) example_self "t1" "g.txt" example_account
      = (inr false, example_account))
  /\ (BlobClient_get_blob_properties (BlobSdk:=InMemory.sdk)
        {| blob_container := "t1"; blob_name := "f.txt" |} example_account
      = (inr {| name := "f.txt"; size := 5 |}, example_account)
      /\ blob_exists (sdk:=InMemory.sdk) example_self "t1" "f.txt"
           example_account
         = (inr true, example_account))
  /\ (BlobClient_get_blob_properties
        (BlobSdk:=unreachable_sdk ClientAuthenticationError)
        {| blob_container := "t1"; blob_name := "f.txt" |} tt
      = (inl ClientAuthenticationError, tt)
      /\ is_ResourceNotFoundError ClientAuthenticationError = false
      /\ blob_exists (sdk:=unreachable_sdk ClientAuthenticationError)
           example_self "t1" "f.txt" tt
         = (inl ClientAuthenticationError, tt))
  /\ (InMemory.blob_absent "t2" "f.txt" example_account
      /\ blob_exists (sdk:=InMemory.sdk) example_self "t2" "f.txt"
           example_account
         = (inr false, example_account)).
Proof.
  destruct blob_exists_translates_not_found as [generic absent].
  split; [| split; [| split]].
  - split; [reflexivity |].
    destruct (generic _ InMemory.sdk example_self "t1" "g.txt" example_account)
      as (_ & not_found & _).
    apply (not_found {| blob_container := "t1"; blob_name := "g.txt" |}
             BlobNotFound); reflexivity.
  - split; [reflexivity |].
    destruct (generic _ InMemory.sdk example_self "t1" "f.txt" example_account)
      as (_ & _ & found & _).
    apply (found {| blob_container := "t1"; blob_name := "f.txt" |}
             {| name := "f.txt"; size := 5 |}); reflexivity.
  - split; [reflexivity | split; [reflexivity |]].
    destruct (generic _ (unreachable_sdk ClientAuthenticationError)
                example_self "t1" "f.txt" tt) as (_ & _ & _ & other & _).
    apply (other {| blob_container := "t1"; blob_name := "f.txt" |});
      reflexivity.
  - split; [reflexivity |].
    apply absent. reflexivity.
Defined.

(** ** Creating containers *)

Lemma create_container_exists {W} {sdk : BlobSdk W} (self : AzureBlobStorage)
    (n : string) (w w' : W) code :
  BlobServiceClient_create_container (blob_service_client self) n w
  = (inl (ResourceExistsError code), w') ->
  create_container self n w
  = (BlobServiceClient_get_container_client (blob_service_client self) n, w').
Proof.
  intros Hreq. unfold create_container.
  apply (try_except_caught _ _ _ w (ResourceExistsError code) w');
    [| reflexivity].
  now apply bind_raises.
Qed.

Lemma create_container_in_memory self n (w : InMemory.account) :
  create_container (sdk:=InMemory.sdk) self n w =
    (inr {| container_name := n |},
     match w !! n with Some _ => w | None => <[n := ∅]> w end).
Proof.
  unfold create_container, try_except, bind. simpl.
  unfold InMemory.create_container_request.
  now destruct (w !! n).
Qed.

Lemma list_blobs_in_memory self n (w : InMemory.account) :
  list_blobs (sdk:=InMemory.sdk) self n w =
    match w !! n with
    | Some blobs => (inr (map fst (map_to_list blobs)), w)
    | None => (inl (ResourceNotFoundError ContainerNotFound), w)
    end.
Proof.
  unfold list_blobs, bind, lift, ret. simpl.
  unfold InMemory.list_blobs_request. simpl.
  destruct (w !! n) as [blobs |]; [| reflexivity].
  now rewrite map_map.
Qed.

(** C3. When the create request of the SDK signals "already exists", the
    facade does not raise: it answers what [get_container_client] gives
    for that name. On the in-memory account, two calls in a row with the
    same name both return the handle of that container, the container can
    be listed through the facade afterwards, the second call changes
    nothing, and a container that existed before keeps its blobs. *)
Theorem create_container_idempotent :
  (forall W (sdk : BlobSdk W) (self : AzureBlobStorage) (n : string)
          (w w' : W) code,
      BlobServiceClient_create_container (blob_service_client self) n w
      = (inl (ResourceExistsError code), w') ->
      create_container self n w
      = (BlobServiceClient_get_container_client (blob_service_client self) n,
         w'))
  /\ (forall (self : AzureBlobStorage) (n : string) (w : InMemory.account),
         exists w1,
           create_container (sdk:=InMemory.sdk) self n w
           = (inr {| container_name := n |}, w1)
           /\ create_container (sdk:=InMemory.sdk) self n w1
              = (inr {| container_name := n |}, w1)
           /\ (exists names,
                  list_blobs (sdk:=InMemory.sdk) self n w1 = (inr names, w1))
           /\ (is_Some (w !! n) -> w1 = w)).
Proof.
  split; [intros W sdk self n w w' code; apply create_container_exists |].
  intros self n w. rewrite create_container_in_memory.
  eexists; split; [reflexivity |].
  rewrite create_container_in_memory, list_blobs_in_memory.
  destruct (w !! n) as [blobs |] eqn:Hn.
  - rewrite Hn. eauto.
  - rewrite lookup_insert_eq. repeat split; eauto.
    intros [? [=]].
Qed.

Lemma create_container_idempotent_witness :
  (BlobServiceClient_create_container (BlobSdk:=InMemory.sdk)
     (blob_service_client example_self) "t1" example_account
   = (inl (ResourceExistsError ContainerAlreadyExists), example_account)
   /\ create_container (sdk:=InMemory.sdk) example_self "t1" example_account
      = (inr {| container_name := "t1" |}, example_account))
  /\ (is_Some (example_account !! "t1")
      /\ exists w1,
        create_container (sdk:=InMemory.sdk) example_self "t1" example_account
        = (inr {| container_name := "t1" |}, w1)
        /\ w1 = example_account).
Proof.
  destruct create_container_idempotent as [generic twice].
  split.
  - split; [reflexivity |].
    apply (generic _ InMemory.sdk example_self "t1" example_account
             example_account ContainerAlreadyExists).
    reflexivity.
  - split; [eexists; reflexivity |].
    destruct (twice example_self "t1" example_account)
      as (w1 & first & _ & _ & kept).
    exists w1. split; [exact first |].
    apply kept. eexists; reflexivity.
Defined.

(** ** Deleting blobs *)

Lemma delete_blob_passes_through {W} {sdk : BlobSdk W}
    (self : AzureBlobStorage) (c n : string) bc (w : W) :
  BlobServiceClient_get_blob_client (blob_service_client self) c n = inr bc ->
  delete_blob self c n w = BlobClient_delete_blob bc w.
Proof. intros Hbc. unfold delete_blob. now rewrite (bind_lift_ok _ _ w bc). Qed.

Lemma delete_blob_in_memory self c n (w : InMemory.account) :
  delete_blob (sdk:=InMemory.sdk) self c n w =
    InMemory.delete_blob_request {| blob_container := c; blob_name := n |} w.
Proof. reflexivity. Qed.

Lemma delete_blob_absent self c n (w : InMemory.account) :
  InMemory.blob_absent c n w ->
  exists code,
    delete_blob (sdk:=InMemory.sdk) self c n w
    = (inl (ResourceNotFoundError code), w).
Proof.
  rewrite delete_blob_in_memory.
  unfold InMemory.blob_absent, InMemory.delete_blob_request. simpl.
  destruct (w !! c) as [blobs |]; simpl; [| eauto].
  intros ->. eauto.
Qed.

(** C8. [delete_blob] is the delete request of the SDK on the blob's
    handle and nothing more: outcome and account are those of the request,
    so no exception is absorbed. On the in-memory account, deleting a blob
    that is absent (its container missing, or the blob missing from it)
    raises [ResourceNotFoundError] and leaves the account as it was. *)
Theorem delete_blob_absent_not_found :
  (forall W (sdk : BlobSdk W) (self : AzureBlobStorage) (c n : string) bc
          (w : W),
      BlobServiceClient_get_blob_client (blob_service_client self) c n
      = inr bc ->
      delete_blob self c n w = BlobClient_delete_blob bc w)
  /\ (forall (self : AzureBlobStorage) (c n : string) (w : InMemory.account),
         InMemory.blob_absent c n w ->
         exists code,
           delete_blob (sdk:=InMemory.sdk) self c n w
           = (inl (ResourceNotFoundError code), w)).
Proof.
  split.
  - intros. now apply delete_blob_passes_through.
  - intros. now apply delete_blob_absent.
Qed.

Lemma delete_blob_absent_not_found_witness :
  (BlobServiceClient_get_blob_client (BlobSdk:=unreachable_sdk ServiceRequestError)
     (blob_service_client example_self) "t1" "f.txt"
   = inr {| blob_container := "t1"; blob_name := "f.txt" |}
   /\ delete_blob (sdk:=unreachable_sdk ServiceRequestError) example_self
        "t1" "f.txt" tt
      = (inl ServiceRequestError, tt))
  /\ (InMemory.blob_absent "t1" "g.txt" example_account
      /\ InMemory.blob_absent "t2" "f.txt" example_account
      /\ (exists code,
             delete_blob (sdk:=InMemory.sdk) example_self "t1" "g.txt"
               example_account
             = (inl (ResourceNotFoundError code), example_account))
      /\ (exists code,
             delete_blob (sdk:=InMemory.sdk) example_self "t2" "f.txt"
               example_account
             = (inl (ResourceNotFoundError code), example_account))).
Proof.
  destruct delete_blob_absent_not_found as [generic absent].
  split.
  - split; [reflexivity |].
    now rewrite (generic _ (unreachable_sdk ServiceRequestError) example_self
                   "t1" "f.txt" {| blob_container := "t1"; blob_name := "f.txt" |}
                   tt eq_refl).
  - split; [reflexivity | split; [reflexivity |]].
    split; apply absent; reflexivity.
Defined.

(** ** Uploading and downloading *)

Section Transfer.
Context {W : Type} {sdk : BlobSdk W}.
Variables (self : AzureBlobStorage) (c n : string) (bc : BlobClient).
Hypothesis handle :
  BlobServiceClient_get_blob_client (blob_service_client self) c n = inr bc.

Lemma upload_blob_request data overwrite b (w : W) :
  content_bytes data = inr b ->
  upload_blob self c n data overwrite w =
    match BlobClient_upload_blob bc b (default true overwrite) w with
    | (inr _, w') => (inr bc, w')
    | (inl e, w') => (inl e, w')
    end.
Proof.
  intros Hb. unfold upload_blob. rewrite (bind_lift_ok _ _ w bc handle).
  unfold bind at 1.
  replace (match data with Str s => lift (str_encode_utf8 s) | Bytes b0 => ret b0 end w)
    with (@inr exn bytes b, w)
    by (destruct data; simpl in Hb; unfold lift, ret; congruence).
  unfold bind, ret.
  now destruct (BlobClient_upload_blob bc b (default true overwrite) w)
    as [[e | []] w'].
Qed.

Lemma upload_blob_not_encodable s overwrite (w : W) :
  utf8_encode s = None ->
  upload_blob self c n (Str s) overwrite w
  = (inl (UnicodeEncodeError "utf-8"), w).
Proof.
  intros Hs. unfold upload_blob. rewrite (bind_lift_ok _ _ w bc handle).
  unfold bind, lift, str_encode_utf8. now rewrite Hs.
Qed.

Lemma download_blob_request (w : W) :
  download_blob self c n w =
    match BlobClient_download_blob bc w with
    | (inr stream, w') => StorageStreamDownloader_readall stream w'
    | (inl e, w') => (inl e, w')
    end.
Proof.
  unfold download_blob. rewrite (bind_lift_ok _ _ w bc handle).
  reflexivity.
Qed.

End Transfer.

Section InMemoryTransfer.
Import InMemory.
Variables (self : AzureBlobStorage) (c n : string).
Implicit Types (w : account) (data : bytes_or_str) (overwrite : option bool).

Lemma download_blob_in_memory w :
  download_blob self c n w
  = (find_blob {| blob_container := c; blob_name := n |} w, w).
Proof.
  rewrite (download_blob_request (sdk:=sdk) self c n
             {| blob_container := c; blob_name := n |} eq_refl).
  simpl. unfold download_request, readall_stream, ret.
  now destruct (find_blob _ w).
Qed.

(** A successful upload stored the bytes of the content under the name,
    in a container that was there, and answered the handle of the blob. *)
Lemma upload_blob_succeeded data overwrite w handle w' :
  upload_blob self c n data overwrite w = (inr handle, w') ->
  exists b blobs,
    content_bytes data = inr b
    /\ w !! c = Some blobs
    /\ w' = <[c := <[n := b]> blobs]> w
    /\ handle = {| blob_container := c; blob_name := n |}.
Proof.
  destruct (content_bytes data) as [e | b] eqn:Hb.
  - destruct data as [s | b0]; [| discriminate].
    simpl in Hb. unfold str_encode_utf8 in Hb.
    destruct (utf8_encode s) eqn:Hs; [discriminate |].
    now rewrite (upload_blob_not_encodable (sdk:=sdk) self c n
                   {| blob_container := c; blob_name := n |} eq_refl s _ w Hs).
  - rewrite (upload_blob_request (sdk:=sdk) self c n
               {| blob_container := c; blob_name := n |} eq_refl _ _ b w Hb).
    simpl. unfold upload_request. simpl.
    destruct (w !! c) as [blobs |]; [| discriminate].
    destruct (negb (default true overwrite)
              && bool_decide (is_Some (blobs !! n))); [discriminate |].
    intros [= <- <-]. eauto 6.
Qed.

(** Whatever its outcome, an upload leaves the account as it was or with
    the blob stored. *)
Lemma upload_blob_account data overwrite w :
  (upload_blob self c n data overwrite w).2 = w
  \/ exists b blobs,
      w !! c = Some blobs
      /\ (upload_blob self c n data overwrite w).2 = <[c := <[n := b]> blobs]> w.
Proof.
  destruct (upload_blob self c n data overwrite w) as [[e | handle] w'] eqn:Hup.
  - left. destruct (content_bytes data) as [e' | b] eqn:Hb.
    + destruct data as [s | b0]; [| discriminate].
      simpl in Hb. unfold str_encode_utf8 in Hb.
      destruct (utf8_encode s) eqn:Hs; [discriminate |].
      rewrite (upload_blob_not_encodable (sdk:=sdk) self c n
                 {| blob_container := c; blob_name := n |} eq_refl s _ w Hs)
        in Hup.
      now inversion Hup.
    + rewrite (upload_blob_request (sdk:=sdk) self c n
                 {| blob_container := c; blob_name := n |} eq_refl _ _ b w Hb)
        in Hup.
      simpl in Hup. unfold upload_request in Hup. simpl in Hup.
      destruct (w !! c) as [blobs |]; [| now inversion Hup].
      destruct (negb (default true overwrite)
                && bool_decide (is_Some (blobs !! n))); now inversion Hup.
  - right. apply upload_blob_succeeded in Hup as (b & blobs & _ & Hc & -> & _).
    eauto.
Qed.

(** With overwriting on, an upload into an existing container succeeds
    as soon as the content has bytes. *)
Lemma upload_blob_overwrites data b w blobs :
  content_bytes data = inr b -> w !! c = Some blobs ->
  upload_blob self c n data (Some true) w
  = (inr {| blob_container := c; blob_name := n |},
     <[c := <[n := b]> blobs]> w).
Proof.
  intros Hb Hc.
  rewrite (upload_blob_request (sdk:=sdk) self c n
             {| blob_container := c; blob_name := n |} eq_refl _ _ b w Hb).
  simpl. unfold upload_request. simpl. now rewrite Hc.
Qed.

Lemma find_blob_stored b blobs w :
  find_blob {| blob_container := c; blob_name := n |}
    (<[c := <[n := b]> blobs]> w) = inr b.
Proof. unfold find_blob. simpl. now rewrite !lookup_insert_eq. Qed.

End InMemoryTransfer.

(** C1. On the in-memory account: when [upload_blob] with
    [overwrite=True] returns, [download_blob] of the same container and
    name returns the uploaded content octet for octet: the bytes
    themselves for [bytes] data (zero octets included), the [utf-8]
    encoding for [str] data. *)
Theorem upload_download_round_trip (self : AzureBlobStorage) (c n : string)
    (data : bytes_or_str) (w w' : InMemory.account) (handle : BlobClient) :
  upload_blob (sdk:=InMemory.sdk) self c n data (Some true) w
  = (inr handle, w') ->
  match data with
  | Bytes b => download_blob (sdk:=InMemory.sdk) self c n w' = (inr b, w')
  | Str s =>
      exists b,
        utf8_encode s = Some b
        /\ download_blob (sdk:=InMemory.sdk) self c n w' = (inr b, w')
  end.
Proof.
  intros Hup.
  apply upload_blob_succeeded in Hup as (b & blobs & Hb & _ & -> & _).
  rewrite download_blob_in_memory, find_blob_stored.
  destruct data as [s | b0]; simpl in Hb.
  - unfold str_encode_utf8 in Hb.
    destruct (utf8_encode s) as [b1 |]; [| discriminate].
    exists b. split; congruence.
  - congruence.
Qed.

Lemma upload_download_round_trip_witness :
  (upload_blob (sdk:=InMemory.sdk) example_self "t1" "test-binary.bin"
     (Bytes binary_example) (Some true) example_account
   = (inr {| blob_container := "t1"; blob_name := "test-binary.bin" |},
      <["t1" := <["test-binary.bin" := binary_example]>
                  {[ "f.txt" := String.list_byte_of_string "hello" ]}]>
        example_account)
   /\ download_blob (sdk:=InMemory.sdk) example_self "t1" "test-binary.bin"
        (<["t1" := <["test-binary.bin" := binary_example]>
                     {[ "f.txt" := String.list_byte_of_string "hello" ]}]>
           example_account)
      = (inr binary_example,
         <["t1" := <["test-binary.bin" := binary_example]>
                     {[ "f.txt" := String.list_byte_of_string "hello" ]}]>
           example_account))
  /\ (upload_blob (sdk:=InMemory.sdk) example_self "t1" "f.txt"
        (Str text_example) (Some true) example_account
      = (inr {| blob_container := "t1"; blob_name := "f.txt" |},
         {[ "t1" := {[ "f.txt" :=
              [x48; xc3; xa9; xe2; x82; xac; xf0; x9f; x98; x80; x00] ]} ]})
      /\ exists b,
        utf8_encode text_example = Some b
        /\ download_blob (sdk:=InMemory.sdk) example_self "t1" "f.txt"
             {[ "t1" := {[ "f.txt" :=
                  [x48; xc3; xa9; xe2; x82; xac; xf0; x9f; x98; x80; x00] ]} ]}
           = (inr b,
              {[ "t1" := {[ "f.txt" :=
                   [x48; xc3; xa9; xe2; x82; xac; xf0; x9f; x98; x80; x00] ]} ]})).
Proof.
  split.
  - split; [reflexivity |].
    apply (upload_download_round_trip example_self "t1" "test-binary.bin"
             (Bytes binary_example) example_account _
             {| blob_container := "t1"; blob_name := "test-binary.bin" |}).
    reflexivity.
  - split; [vm_compute; reflexivity |].
    apply (upload_download_round_trip example_self "t1" "f.txt"
             (Str text_example) example_account _
             {| blob_container := "t1"; blob_name := "f.txt" |}).
    vm_compute. reflexivity.
Defined.

(** C6. On the in-memory account: after an upload to a name has returned,
    whenever a second upload to that name with [overwrite=True] returns,
    [download_blob] returns the bytes of the second content (the [utf-8]
    encoding for [str] content), not those of the first. The second
    upload does return, with no conflict error, for every content that
    has bytes: all [bytes], and every [str] with a [utf-8] encoding. *)
Theorem overwrite_last_write_wins (self : AzureBlobStorage) (c n : string)
    (data1 data2 : bytes_or_str) (overwrite1 : option bool)
    (w w1 : InMemory.account) (handle1 : BlobClient) :
  upload_blob (sdk:=InMemory.sdk) self c n data1 overwrite1 w
  = (inr handle1, w1) ->
  (forall handle2 w2,
      upload_blob (sdk:=InMemory.sdk) self c n data2 (Some true) w1
      = (inr handle2, w2) ->
      exists b2,
        content_bytes data2 = inr b2
        /\ download_blob (sdk:=InMemory.sdk) self c n w2 = (inr b2, w2))
  /\ (forall b2,
         content_bytes data2 = inr b2 ->
         exists handle2 w2,
           upload_blob (sdk:=InMemory.sdk) self c n data2 (Some true) w1
           = (inr handle2, w2)
           /\ download_blob (sdk:=InMemory.sdk) self c n w2 = (inr b2, w2)).
Proof.
  intros Hup1.
  apply upload_blob_succeeded in Hup1 as (b1 & blobs & _ & _ & -> & _).
  split.
  - intros handle2 w2 Hup2.
    apply upload_blob_succeeded in Hup2 as (b2 & blobs2 & Hb2 & _ & -> & _).
    exists b2. split; [exact Hb2 |].
    now rewrite download_blob_in_memory, find_blob_stored.
  - intros b2 Hb2. do 2 eexists. split.
    + apply upload_blob_overwrites; [exact Hb2 | apply lookup_insert_eq].
    + now rewrite download_blob_in_memory, find_blob_stored.
Qed.

Lemma overwrite_last_write_wins_witness :
  upload_blob (sdk:=InMemory.sdk) example_self "t1" "overwrite-test.txt"
    (Str (text_of_string "Original data")) None example_account
  = (inr {| blob_container := "t1"; blob_name := "overwrite-test.txt" |},
     <["t1" := <["overwrite-test.txt" :=
                   String.list_byte_of_string "Original data"]>
                 {[ "f.txt" := String.list_byte_of_string "hello" ]}]>
       example_account)
  /\ upload_blob (sdk:=InMemory.sdk) example_self "t1" "overwrite-test.txt"
       (Str (text_of_string "New data")) (Some true)
       (<["t1" := <["overwrite-test.txt" :=
                     String.list_byte_of_string "Original data"]>
                   {[ "f.txt" := String.list_byte_of_string "hello" ]}]>
          example_account)
     = (inr {| blob_container := "t1"; blob_name := "overwrite-test.txt" |},
        <["t1" := <["overwrite-test.txt" :=
                      String.list_byte_of_string "New data"]>
                    {[ "f.txt" := String.list_byte_of_string "hello" ]}]>
          example_account)
  /\ (exists b2,
         content_bytes (Str (text_of_string "New data")) = inr b2
         /\ download_blob (sdk:=InMemory.sdk) example_self "t1"
              "overwrite-test.txt"
              (<["t1" := <["overwrite-test.txt" :=
                            String.list_byte_of_string "New data"]>
                          {[ "f.txt" := String.list_byte_of_string "hello" ]}]>
                 example_account)
            = (inr b2,
               <["t1" := <["overwrite-test.txt" :=
                             String.list_byte_of_string "New data"]>
                           {[ "f.txt" := String.list_byte_of_string "hello" ]}]>
                 example_account))
  /\ content_bytes (Str (text_of_string "New data"))
     = inr (String.list_byte_of_string "New data").
Proof.
  destruct (overwrite_last_write_wins example_self "t1" "overwrite-test.txt"
              (Str (text_of_string "Original data"))
              (Str (text_of_string "New data")) None example_account
              (<["t1" := <["overwrite-test.txt" :=
                            String.list_byte_of_string "Original data"]>
                          {[ "f.txt" := String.list_byte_of_string "hello" ]}]>
                 example_account)
              {| blob_container := "t1"; blob_name := "overwrite-test.txt" |})
    as [returned _]; [vm_compute; reflexivity |].
  split; [vm_compute; reflexivity | split; [vm_compute; reflexivity |]].
  split; [| vm_compute; reflexivity].
  apply (returned
           {| blob_container := "t1"; blob_name := "overwrite-test.txt" |}).
  vm_compute; reflexivity.
Defined.

(** ** Reading leaves the account alone *)

Section ReadOnly.
Context {W : Type} {sdk : BlobSdk W} {codecs : PyCodecs}.
Hypothesis properties_request_reads :
  forall bc, preserves (BlobClient_get_blob_properties bc).
Hypothesis download_request_reads :
  forall bc, preserves (BlobClient_download_blob bc).
Hypothesis readall_reads :
  forall stream, preserves (StorageStreamDownloader_readall stream).
Hypothesis list_request_reads :
  forall cc, preserves (ContainerClient_list_blobs cc).
Variables (self : AzureBlobStorage) (c n : string).

Lemma blob_exists_preserves : preserves (blob_exists self c n).
Proof. unfold blob_exists. auto 10 with preserves. Qed.

Lemma download_blob_preserves : preserves (download_blob self c n).
Proof. unfold download_blob. auto 10 with preserves. Qed.

Lemma get_blob_as_text_preserves encoding :
  preserves (get_blob_as_text self c n encoding).
Proof.
  unfold get_blob_as_text.
  apply preserves_bind; [apply download_blob_preserves |].
  auto with preserves.
Qed.

Lemma list_blobs_preserves : preserves (list_blobs self c).
Proof. unfold list_blobs. auto 10 with preserves. Qed.

End ReadOnly.

Section InMemoryReads.
Import InMemory.

Lemma properties_request_preserves bc : preserves (properties_request bc).
Proof. intros w. unfold properties_request. now destruct (find_blob bc w). Qed.

Lemma download_request_preserves bc : preserves (download_request bc).
Proof. now intros w. Qed.

Lemma readall_stream_preserves stream : preserves (readall_stream stream).
Proof. now intros w. Qed.

Lemma list_blobs_request_preserves cc : preserves (list_blobs_request cc).
Proof.
  intros w. unfold list_blobs_request. now destruct (w !! container_name cc).
Qed.

End InMemoryReads.

(** C10. The four read operations send only the properties, download,
    read-to-end and listing requests: with any SDK whose four requests
    leave the account as it is, [blob_exists], [download_blob],
    [get_blob_as_text] and [list_blobs] leave it as it is, whether they
    return or raise. In particular on the in-memory account, whose state
    is the containers with the names and contents of their blobs, the
    account after each of the four is the account before. *)
Theorem read_operations_change_nothing :
  (forall W (sdk : BlobSdk W) (codecs : PyCodecs),
      (forall bc, preserves (BlobClient_get_blob_properties bc)) ->
      (forall bc, preserves (BlobClient_download_blob bc)) ->
      (forall stream, preserves (StorageStreamDownloader_readall stream)) ->
      (forall cc, preserves (ContainerClient_list_blobs cc)) ->
      forall (self : AzureBlobStorage) (c n : string) encoding,
        preserves (blob_exists self c n)
        /\ preserves (download_blob self c n)
        /\ preserves (get_blob_as_text self c n encoding)
        /\ preserves (list_blobs self c))
  /\ (forall (codecs : PyCodecs) (self : AzureBlobStorage) (c n : string)
             encoding (w : InMemory.account),
         (blob_exists (sdk:=InMemory.sdk) self c n w).2 = w
         /\ (download_blob (sdk:=InMemory.sdk) self c n w).2 = w
         /\ (get_blob_as_text (sdk:=InMemory.sdk) self c n encoding w).2 = w
         /\ (list_blobs (sdk:=InMemory.sdk) self c w).2 = w).
Proof.
  assert (generic :
    forall W (sdk : BlobSdk W) (codecs : PyCodecs),
      (forall bc, preserves (BlobClient_get_blob_properties bc)) ->
      (forall bc, preserves (BlobClient_download_blob bc)) ->
      (forall stream, preserves (StorageStreamDownloader_readall stream)) ->
      (forall cc, preserves (ContainerClient_list_blobs cc)) ->
      forall (self : AzureBlobStorage) (c n : string) encoding,
        preserves (blob_exists self c n)
        /\ preserves (download_blob self c n)
        /\ preserves (get_blob_as_text self c n encoding)
        /\ preserves (list_blobs self c)).
  { intros W sdk codecs Hp Hd Hr Hl self c n encoding. repeat split.
    - now apply blob_exists_preserves.
    - now apply download_blob_preserves.
    - now apply get_blob_as_text_preserves.
    - now apply list_blobs_preserves. }
  split; [exact generic |].
  intros codecs self c n encoding w.
  destruct (generic _ InMemory.sdk codecs properties_request_preserves
              download_request_preserves readall_stream_preserves
              list_blobs_request_preserves self c n encoding)
    as (He & Hd & Ht & Hl).
  repeat split; [apply He | apply Hd | apply Ht | apply Hl].
Qed.

Lemma read_operations_change_nothing_witness :
  (forall bc,
      preserves (BlobClient_get_blob_properties (BlobSdk:=InMemory.sdk) bc))
  /\ (forall bc, preserves (BlobClient_download_blob (BlobSdk:=InMemory.sdk) bc))
  /\ (forall stream,
         preserves (StorageStreamDownloader_readall (BlobSdk:=InMemory.sdk)
                      stream))
  /\ (forall cc, preserves (ContainerClient_list_blobs (BlobSdk:=InMemory.sdk) cc))
  /\ (blob_exists (sdk:=InMemory.sdk) example_self "t1" "f.txt"
        example_account).2 = example_account
  /\ (download_blob (sdk:=InMemory.sdk) example_self "t1" "f.txt"
        example_account).2 = example_account
  /\ (get_blob_as_text (sdk:=InMemory.sdk) (codecs:=builtin_codecs)
        example_self "t1" "f.txt" None example_account).2 = example_account
  /\ (list_blobs (sdk:=InMemory.sdk) example_self "t1" example_account).2
     = example_account.
Proof.
  destruct read_operations_change_nothing as [generic _].
  pose proof properties_request_preserves as Hp.
  pose proof download_request_preserves as Hd.
  pose proof readall_stream_preserves as Hr.
  pose proof list_blobs_request_preserves as Hl.
  do 4 (split; [assumption |]).
  destruct (generic _ InMemory.sdk builtin_codecs Hp Hd Hr Hl example_self
              "t1" "f.txt" None) as (He & Hdl & Ht & Hls).
  exact (conj (He _) (conj (Hdl _) (conj (Ht _) (Hls _)))).
Defined.

(** ** Existence follows uploads and deletions *)

Section InMemoryAbsence.
Import InMemory.
Context {codecs : PyCodecs}.
Variables (self : AzureBlobStorage) (c n : string).
Implicit Types (w : account) (k : call).

Lemma blob_absent_other_container c' blobs w :
  c' <> c -> blob_absent c n w -> blob_absent c n (<[c' := blobs]> w).
Proof. unfold blob_absent. intros Hne. now rewrite lookup_insert_ne. Qed.

Lemma blob_absent_same_container blobs w :
  blobs !! n = None -> blob_absent c n (<[c := blobs]> w).
Proof. unfold blob_absent. intros Hn. now rewrite lookup_insert_eq. Qed.

Lemma blob_absent_container blobs w :
  blob_absent c n w -> w !! c = Some blobs -> blobs !! n = None.
Proof. unfold blob_absent. intros Habs Hc. now rewrite Hc in Habs. Qed.

Lemma create_container_keeps_absent c' w :
  blob_absent c n w -> blob_absent c n (create_container self c' w).2.
Proof.
  intros Habs. rewrite create_container_in_memory. simpl.
  destruct (w !! c') eqn:Hc'; [exact Habs |].
  destruct (decide (c' = c)) as [-> | Hne].
  - now apply blob_absent_same_container.
  - now apply blob_absent_other_container.
Qed.

Lemma upload_blob_keeps_absent c' n' data overwrite w :
  uploads_to c n (UploadBlob c' n' data overwrite) = false ->
  blob_absent c n w ->
  blob_absent c n (upload_blob self c' n' data overwrite w).2.
Proof.
  intros Hother Habs.
  destruct (upload_blob_account self c' n' data overwrite w)
    as [-> | (b & blobs & Hc' & ->)]; [exact Habs |].
  destruct (decide (c' = c)) as [-> | Hne];
    [| now apply blob_absent_other_container].
  apply blob_absent_same_container.
  simpl in Hother. rewrite String.eqb_refl in Hother. simpl in Hother.
  apply String.eqb_neq in Hother.
  rewrite lookup_insert_ne by congruence.
  now apply (blob_absent_container blobs w).
Qed.

Lemma delete_blob_keeps_absent c' n' w :
  blob_absent c n w -> blob_absent c n (delete_blob self c' n' w).2.
Proof.
  intros Habs. rewrite delete_blob_in_memory.
  unfold delete_blob_request. simpl.
  destruct (w !! c') as [blobs |] eqn:Hc'; [| exact Habs].
  destruct (blobs !! n') eqn:Hn'; [| exact Habs]. simpl.
  destruct (decide (c' = c)) as [-> | Hne];
    [| now apply blob_absent_other_container].
  apply blob_absent_same_container.
  destruct (decide (n' = n)) as [-> | Hnn]; [apply lookup_delete_eq |].
  rewrite lookup_delete_ne by exact Hnn.
  now apply (blob_absent_container blobs w).
Qed.

Lemma delete_container_keeps_absent c' w :
  blob_absent c n w -> blob_absent c n (delete_container self c' w).2.
Proof.
  intros Habs. unfold delete_container. simpl.
  unfold delete_container_request.
  destruct (w !! c') eqn:Hc'; [| exact Habs]. simpl.
  unfold blob_absent in *.
  destruct (decide (c' = c)) as [-> | Hne].
  - now rewrite lookup_delete_eq.
  - now rewrite lookup_delete_ne.
Qed.

Lemma run_call_keeps_absent k w :
  uploads_to c n k = false ->
  blob_absent c n w -> blob_absent c n (run_call self k w).
Proof.
  intros Hother Habs.
  destruct k as [c' | c' n' data overwrite | c' n' | c' n' encoding | c' n'
                | c' n' | c' | c']; simpl.
  - now apply create_container_keeps_absent.
  - now apply upload_blob_keeps_absent.
  - now rewrite (download_blob_preserves (sdk:=sdk) download_request_preserves
                   readall_stream_preserves self c' n' w).
  - now rewrite (get_blob_as_text_preserves (sdk:=sdk) download_request_preserves
                   readall_stream_preserves self c' n' encoding w).
  - now rewrite (blob_exists_preserves (sdk:=sdk) properties_request_preserves
                   self c' n' w).
  - now apply delete_blob_keeps_absent.
  - now apply delete_container_keeps_absent.
  - now rewrite (list_blobs_preserves (sdk:=sdk) list_blobs_request_preserves self c' w).
Qed.

Lemma run_script_keeps_absent ks w :
  forallb (fun k => negb (uploads_to c n k)) ks = true ->
  blob_absent c n w -> blob_absent c n (run_script self ks w).
Proof.
  unfold run_script. revert w.
  induction ks as [| k ks IH]; intros w Hks Habs; simpl; [exact Habs |].
  simpl in Hks. apply andb_true_iff in Hks as [Hk Hks].
  apply IH; [exact Hks |].
  apply run_call_keeps_absent; [| exact Habs].
  now apply negb_true_iff.
Qed.

Lemma delete_blob_leaves_absent w :
  blob_absent c n (delete_blob self c n w).2.
Proof.
  rewrite delete_blob_in_memory. unfold delete_blob_request. simpl.
  destruct (w !! c) as [blobs |] eqn:Hc; simpl;
    [| unfold blob_absent; now rewrite Hc].
  destruct (blobs !! n) eqn:Hn; simpl.
  - apply blob_absent_same_container, lookup_delete_eq.
  - unfold blob_absent. now rewrite Hc.
Qed.

Lemma blob_exists_uploaded data overwrite w handle w' :
  upload_blob self c n data overwrite w = (inr handle, w') ->
  blob_exists self c n w' = (inr true, w').
Proof.
  intros Hup.
  apply upload_blob_succeeded in Hup as (b & blobs & _ & _ & -> & _).
  now rewrite blob_exists_in_memory, find_blob_stored.
Qed.

End InMemoryAbsence.

(** C5. On the in-memory account, for a container [c] and a name [n]:
    - as long as no upload to [n] in [c] has been made (the blob is absent
      at the start, as in the empty account, and the calls made since,
      whatever their outcome, include no [upload_blob] to it),
      [blob_exists] answers [False];
    - in the account a returned [upload_blob] to [n] leaves, [blob_exists]
      answers [True];
    - in the account [delete_blob] of [n] leaves, [blob_exists] answers
      [False]. *)
Theorem blob_exists_follows_uploads_and_deletes (codecs : PyCodecs)
    (self : AzureBlobStorage) (c n : string) :
  (forall (ks : list call) (w0 : InMemory.account),
      InMemory.blob_absent c n w0 ->
      forallb (fun k => negb (uploads_to c n k)) ks = true ->
      blob_exists (sdk:=InMemory.sdk) self c n
        (run_script (sdk:=InMemory.sdk) self ks w0)
      = (inr false, run_script (sdk:=InMemory.sdk) self ks w0))
  /\ (forall data overwrite (w w' : InMemory.account) handle,
         upload_blob (sdk:=InMemory.sdk) self c n data overwrite w
         = (inr handle, w') ->
         blob_exists (sdk:=InMemory.sdk) self c n w' = (inr true, w'))
  /\ (forall w : InMemory.account,
         blob_exists (sdk:=InMemory.sdk) self c n
           (delete_blob (sdk:=InMemory.sdk) self c n w).2
         = (inr false, (delete_blob (sdk:=InMemory.sdk) self c n w).2)).
Proof.
  split; [| split].
  - intros ks w0 Habs Hks.
    now apply blob_exists_absent, run_script_keeps_absent.
  - intros data overwrite w w' handle.
    apply blob_exists_uploaded.
  - intros w. apply blob_exists_absent, delete_blob_leaves_absent.
Qed.

Lemma blob_exists_follows_uploads_and_deletes_witness :
  (InMemory.blob_absent "t1" "exists-test.txt" ∅
   /\ forallb (fun k => negb (uploads_to "t1" "exists-test.txt" k))
        example_script = true
   /\ blob_exists (sdk:=InMemory.sdk) example_self "t1" "exists-test.txt"
        (run_script (sdk:=InMemory.sdk) (codecs:=builtin_codecs) example_self
           example_script ∅)
      = (inr false,
         run_script (sdk:=InMemory.sdk) (codecs:=builtin_codecs) example_self
           example_script ∅))
  /\ (upload_blob (sdk:=InMemory.sdk) example_self "t1" "exists-test.txt"
        (Str (text_of_string "test data")) None example_account
      = (inr {| blob_container := "t1"; blob_name := "exists-test.txt" |},
         <["t1" := <["exists-test.txt" :=
                       String.list_byte_of_string "test data"]>
                     {[ "f.txt" := String.list_byte_of_string "hello" ]}]>
           example_account)
      /\ blob_exists (sdk:=InMemory.sdk) example_self "t1" "exists-test.txt"
           (<["t1" := <["exists-test.txt" :=
                         String.list_byte_of_string "test data"]>
                       {[ "f.txt" := String.list_byte_of_string "hello" ]}]>
              example_account)
         = (inr true,
            <["t1" := <["exists-test.txt" :=
                          String.list_byte_of_string "test data"]>
                        {[ "f.txt" := String.list_byte_of_string "hello" ]}]>
              example_account)).
Proof.
  destruct (blob_exists_follows_uploads_and_deletes builtin_codecs example_self
              "t1" "exists-test.txt") as (before & uploaded & _).
  split.
  - split; [reflexivity | split; [reflexivity |]].
    apply before; reflexivity.
  - split; [vm_compute; reflexivity |].
    apply (uploaded (Str (text_of_string "test data")) None example_account _
             {| blob_container := "t1"; blob_name := "exists-test.txt" |}).
    vm_compute; reflexivity.
Defined.

(** ** Text in, text out *)

Section Text.
Context {W : Type} {sdk : BlobSdk W} {codecs : PyCodecs}.
Variables (self : AzureBlobStorage) (c n : string).


Lemma get_blob_as_text_decodes encoding b (w w' : W) :
  download_blob self c n w = (inr b, w') ->
  get_blob_as_text self c n encoding w
  = (bytes_decode b (default "utf-8" encoding), w').
Proof.
  intros Hd. unfold get_blob_as_text. now rewrite (bind_ok _ _ w b w' Hd).
Qed.


End Text.


(** X14. On the in-memory account, with the strict decoder registered
    for ['utf-8']: after [upload_blob] of a text has returned,
    [get_blob_as_text] with the default encoding returns that text. *)
Lemma get_blob_as_text_round_trip (codecs : PyCodecs) self c n s overwrite
    (w w' : InMemory.account) handle :
  lookup_decoder "utf-8" = Some utf8_decode ->
  upload_blob (sdk:=InMemory.sdk) self c n (Str s) overwrite w
  = (inr handle, w') ->
  get_blob_as_text (sdk:=InMemory.sdk) self c n None w' = (inr s, w').
Proof.
  intros Hcodec Hup.
  apply upload_blob_succeeded in Hup as (b & blobs & Hb & _ & -> & _).
  simpl in Hb. unfold str_encode_utf8 in Hb.
  destruct (utf8_encode s) as [b' |] eqn:Hs; [| discriminate].
  injection Hb as ->.
  rewrite (get_blob_as_text_decodes (sdk:=InMemory.sdk) self c n None b _ _
             (eq_trans (download_blob_in_memory self c n _)
                (f_equal (fun r => (r, _)) (find_blob_stored c n b blobs w)))).
  pose proof (utf8_decode_encode s b Hs) as Hdecode.
  unfold bytes_decode. simpl. destruct b as [| b0 b].
  - simpl in Hdecode. now injection Hdecode as <-.
  - now rewrite Hcodec, Hdecode.
Qed.



(** * Further properties of the facade *)

(** ** What [create_container] lets through *)

(** X1. For every SDK: when the create request returns a handle,
    [create_container] returns that handle; an exception of the request
    other than [ResourceExistsError] reaches the caller as raised; and
    [create_container] raises [ResourceExistsError] only if
    [get_container_client] itself raised it in the handler. *)
Theorem create_container_outcomes {W : Type} {sdk : BlobSdk W}
    (self : AzureBlobStorage) (n : string) (w : W) :
  (forall handle w',
      BlobServiceClient_create_container (blob_service_client self) n w
      = (inr handle, w') ->
      create_container self n w = (inr handle, w'))
  /\ (forall e w',
         BlobServiceClient_create_container (blob_service_client self) n w
         = (inl e, w') ->
         is_ResourceExistsError e = false ->
         create_container self n w = (inl e, w'))
  /\ (forall code w',
         create_container self n w = (inl (ResourceExistsError code), w') ->
         BlobServiceClient_get_container_client (blob_service_client self) n
         = inl (ResourceExistsError code)).
Proof.
  unfold create_container, try_except, bind, ret, lift.
  destruct (BlobServiceClient_create_container (blob_service_client self) n w)
    as [[e | handle] w1]; repeat split.
  - intros handle w' [=].
  - intros e' w' [= -> ->] He. now rewrite He.
  - intros code w'. destruct (is_ResourceExistsError e) eqn:He.
    + now intros [= -> _].
    + intros [= -> _]. discriminate.
  - now intros handle' w' [= -> ->].
  - intros e w' [=].
  - intros code w' [=].
Qed.

Lemma create_container_outcomes_witness :
  (BlobServiceClient_create_container (BlobSdk:=InMemory.sdk)
     (blob_service_client example_self) "t2" example_account
   = (inr {| container_name := "t2" |}, <["t2" := ∅]> example_account)
   /\ create_container (sdk:=InMemory.sdk) example_self "t2" example_account
      = (inr {| container_name := "t2" |}, <["t2" := ∅]> example_account))
  /\ (BlobServiceClient_create_container
        (BlobSdk:=unreachable_sdk ClientAuthenticationError)
        (blob_service_client example_self) "t2" tt
      = (inl ClientAuthenticationError, tt)
      /\ is_ResourceExistsError ClientAuthenticationError = false
      /\ create_container (sdk:=unreachable_sdk ClientAuthenticationError)
           example_self "t2" tt
         = (inl ClientAuthenticationError, tt)).
Proof.
  split.
  - split; [reflexivity |].
    destruct (create_container_outcomes (sdk:=InMemory.sdk) example_self "t2"
                example_account) as [returned _].
    apply returned. reflexivity.
  - split; [reflexivity | split; [reflexivity |]].
    destruct (create_container_outcomes
                (sdk:=unreachable_sdk ClientAuthenticationError) example_self
                "t2" tt) as (_ & raised & _).
    apply raised; reflexivity.
Defined.

(** ** What [upload_blob] does when a step fails *)

(** X2. For every SDK: when obtaining the blob handle raises,
    [upload_blob] raises that exception and does nothing else, whatever
    the data (a text without encoding included); and when the upload
    request raises, [upload_blob] raises the same exception, with the
    account as the request left it, instead of returning the handle. *)
Theorem upload_blob_failures {W : Type} {sdk : BlobSdk W}
    (self : AzureBlobStorage) (c n : string) (data : bytes_or_str)
    (overwrite : option bool) (w : W) :
  (forall e,
      BlobServiceClient_get_blob_client (blob_service_client self) c n
      = inl e ->
      upload_blob self c n data overwrite w = (inl e, w))
  /\ (forall bc b e w',
         BlobServiceClient_get_blob_client (blob_service_client self) c n
         = inr bc ->
         content_bytes data = inr b ->
         BlobClient_upload_blob bc b (default true overwrite) w = (inl e, w') ->
         upload_blob self c n data overwrite w = (inl e, w')).
Proof.
  split.
  - intros e He. unfold upload_blob. now apply bind_lift_raises.
  - intros bc b e w' Hbc Hb Hreq.
    now rewrite (upload_blob_request self c n bc Hbc data overwrite b w Hb),
      Hreq.
Qed.

Lemma upload_blob_failures_witness :
  BlobServiceClient_get_blob_client (BlobSdk:=InMemory.sdk)
    (blob_service_client example_self) "t1" "f.txt"
  = inr {| blob_container := "t1"; blob_name := "f.txt" |}
  /\ content_bytes (Bytes binary_example) = inr binary_example
  /\ BlobClient_upload_blob (BlobSdk:=InMemory.sdk)
       {| blob_container := "t1"; blob_name := "f.txt" |} binary_example
       (default true (Some false)) example_account
     = (inl (ResourceExistsError BlobAlreadyExists), example_account)
  /\ upload_blob (sdk:=InMemory.sdk) example_self "t1" "f.txt"
       (Bytes binary_example) (Some false) example_account
     = (inl (ResourceExistsError BlobAlreadyExists), example_account).
Proof.
  split; [reflexivity | split; [reflexivity | split; [reflexivity |]]].
  destruct (upload_blob_failures (sdk:=InMemory.sdk) example_self "t1" "f.txt"
              (Bytes binary_example) (Some false) example_account)
    as [_ request_raises].
  apply (request_raises {| blob_container := "t1"; blob_name := "f.txt" |}
           binary_example);
    reflexivity.
Defined.

(** ** The cleanup fixture *)



(** ** Reads agree with each other *)

Lemma find_blob_error bc (w : InMemory.account) e :
  InMemory.find_blob bc w = inl e -> is_ResourceNotFoundError e = true.
Proof.
  unfold InMemory.find_blob.
  destruct (w !! blob_container bc) as [blobs |]; [| now intros [= <-]].
  destruct (blobs !! blob_name bc); [discriminate | now intros [= <-]].
Qed.

(** X4. On the in-memory account [blob_exists] and [download_blob] tell
    the same story: the answer is [True] exactly when the download
    returns bytes, and [False] exactly when the download raises
    [ResourceNotFoundError]; one of the two always holds. *)
Theorem blob_exists_agrees_with_download (self : AzureBlobStorage)
    (c n : string) (w : InMemory.account) :
  (blob_exists (sdk:=InMemory.sdk) self c n w = (inr true, w) <->
   exists b, download_blob (sdk:=InMemory.sdk) self c n w = (inr b, w))
  /\ (blob_exists (sdk:=InMemory.sdk) self c n w = (inr false, w) <->
      exists code,
        download_blob (sdk:=InMemory.sdk) self c n w
        = (inl (ResourceNotFoundError code), w))
  /\ (blob_exists (sdk:=InMemory.sdk) self c n w = (inr true, w)
      \/ blob_exists (sdk:=InMemory.sdk) self c n w = (inr false, w)).
Proof.
  rewrite blob_exists_in_memory, download_blob_in_memory.
  destruct (InMemory.find_blob _ w) as [e | b] eqn:Hfind.
  - pose proof (find_blob_error _ _ _ Hfind) as He.
    destruct e; try discriminate. repeat split; eauto.
    + intros [=].
    + intros [b [=]].
  - repeat split; eauto.
    + intros [=].
    + intros [code [=]].
Qed.

(** ** Which texts can be uploaded *)

(** A code point [utf-8] has no encoding for. *)
Lemma utf8_encode_char_None c :
  utf8_encode_char c = None <->
  is_surrogate c = true \/ (0x110000 <= c)%N.
Proof.
  unfold utf8_encode_char, is_surrogate.
  destruct (N.ltb_spec c 0x80).
  { split; [discriminate |]. intros [Hs | ?]; [| lia].
    apply andb_true_iff in Hs as [Hs _]. apply N.leb_le in Hs. lia. }
  destruct (N.ltb_spec c 0x800).
  { split; [discriminate |]. intros [Hs | ?]; [| lia].
    apply andb_true_iff in Hs as [Hs _]. apply N.leb_le in Hs. lia. }
  destruct (N.ltb_spec c 0x10000).
  { destruct ((0xD800 <=? c)%N && (c <=? 0xDFFF)%N); split; auto;
      try discriminate.
    intros [? | ?]; [discriminate | lia]. }
  destruct (N.ltb_spec c 0x110000).
  { split; [discriminate |]. intros [Hs | ?]; [| lia].
    apply andb_true_iff in Hs as [_ Hs]. apply N.leb_le in Hs. lia. }
  split; auto.
Qed.

Lemma utf8_encode_None s :
  utf8_encode s = None <->
  Exists (fun c => is_surrogate c = true \/ (0x110000 <= c)%N) s.
Proof.
  induction s as [| c s IH]; simpl.
  - split; [discriminate | intros H; inversion H].
  - rewrite Exists_cons, <- IH, <- utf8_encode_char_None.
    destruct (utf8_encode_char c), (utf8_encode s); split; auto;
      try discriminate; intros [? | ?]; discriminate.
Qed.

(** X5. On the in-memory account, with the container present,
    [upload_blob] of a [str] raises [UnicodeEncodeError] exactly when the
    text holds a lone surrogate ([U+D800..U+DFFF]) or a value beyond
    [U+10FFFF]; every other text is uploaded, and the upload returns. *)
Theorem upload_blob_str_encodable (self : AzureBlobStorage) (c n : string)
    (s : text) (w : InMemory.account) :
  is_Some (w !! c) ->
  (upload_blob (sdk:=InMemory.sdk) self c n (Str s) None w
   = (inl (UnicodeEncodeError "utf-8"), w) <->
   Exists (fun p => is_surrogate p = true \/ (0x110000 <= p)%N) s)
  /\ ((exists handle w',
          upload_blob (sdk:=InMemory.sdk) self c n (Str s) None w
          = (inr handle, w')) <->
      Forall (fun p => is_surrogate p = false /\ (p < 0x110000)%N) s).
Proof.
  intros [blobs Hc].
  assert (Hall :
    Forall (fun p => is_surrogate p = false /\ (p < 0x110000)%N) s <->
    ~ Exists (fun p => is_surrogate p = true \/ (0x110000 <= p)%N) s).
  { rewrite <- Forall_Exists_neg. apply Forall_iff. intros x.
    destruct (is_surrogate x); split.
    - now intros [? _].
    - intros H. exfalso. apply H. now left.
    - intros [_ ?] [? | ?]; [discriminate | lia].
    - intros H. split; [reflexivity |]. apply N.lt_nge. intros ?.
      apply H. now right. }
  rewrite Hall, <- utf8_encode_None.
  destruct (utf8_encode s) as [b |] eqn:Hs.
  - assert (Hb : content_bytes (Str s) = inr b)
      by (simpl; unfold str_encode_utf8; now rewrite Hs).
    rewrite (upload_blob_request (sdk:=InMemory.sdk) self c n
               {| blob_container := c; blob_name := n |} eq_refl _ _ b w Hb).
    simpl. unfold InMemory.upload_request. simpl. rewrite Hc. simpl.
    split; split; try discriminate; eauto.
  - rewrite (upload_blob_not_encodable (sdk:=InMemory.sdk) self c n
               {| blob_container := c; blob_name := n |} eq_refl s None w Hs).
    split; split; auto.
    + intros (handle & w' & [=]).
    + intros H. now destruct H.
Qed.

Lemma upload_blob_str_encodable_witness :
  is_Some (example_account !! "t1")
  /\ (Exists (fun p => is_surrogate p = true \/ (0x110000 <= p)%N)
        [0x48; 0xD800]%N
      /\ upload_blob (sdk:=InMemory.sdk) example_self "t1" "g.txt"
           (Str [0x48; 0xD800]%N) None example_account
         = (inl (UnicodeEncodeError "utf-8"), example_account)).
Proof.
  assert (Hc : is_Some (example_account !! "t1")) by (eexists; reflexivity).
  assert (Hs : Exists (fun p => is_surrogate p = true \/ (0x110000 <= p)%N)
                 [0x48; 0xD800]%N).
  { apply Exists_cons_tl, Exists_cons_hd. now left. }
  split; [exact Hc | split; [exact Hs |]].
  destruct (upload_blob_str_encodable example_self "t1" "g.txt"
              [0x48; 0xD800]%N example_account Hc) as [raises _].
  now apply raises.
Defined.

(** ** Listings *)

(** X6. On the in-memory account, a listing that [list_blobs] returns
    names every blob of the container once: it has no duplicates, and a
    name is in it exactly when [blob_exists] answers [True] for it. For a
    container that is not there, [list_blobs] raises
    [ResourceNotFoundError]. *)
Theorem list_blobs_lists_what_exists (self : AzureBlobStorage) (c : string)
    (w : InMemory.account) :
  (forall names w',
      list_blobs (sdk:=InMemory.sdk) self c w = (inr names, w') ->
      NoDup names
      /\ forall n,
          n ∈ names <->
          blob_exists (sdk:=InMemory.sdk) self c n w = (inr true, w))
  /\ (w !! c = None ->
      list_blobs (sdk:=InMemory.sdk) self c w
      = (inl (ResourceNotFoundError ContainerNotFound), w)).
Proof.
  rewrite list_blobs_in_memory. split.
  - destruct (w !! c) as [blobs |] eqn:Hc; [| discriminate].
    intros names w' [= <- <-]. split; [apply NoDup_fst_map_to_list |].
    intros n. rewrite blob_exists_in_memory.
    unfold InMemory.find_blob. simpl. rewrite Hc.
    rewrite list_elem_of_fmap. split.
    + intros ([n' b] & -> & Hin). apply elem_of_map_to_list in Hin.
      simpl. now rewrite Hin.
    + destruct (blobs !! n) as [b |] eqn:Hn; [| discriminate].
      intros _. exists (n, b). split; [reflexivity |].
      now apply elem_of_map_to_list.
  - now intros ->.
Qed.

Lemma list_blobs_lists_what_exists_witness :
  list_blobs (sdk:=InMemory.sdk) example_self "t1" example_account
  = (inr ["f.txt"], example_account)
  /\ NoDup ["f.txt"]
  /\ ("f.txt" ∈ ["f.txt"] <->
      blob_exists (sdk:=InMemory.sdk) example_self "t1" "f.txt"
        example_account
      = (inr true, example_account))
  /\ example_account !! "t2" = None
  /\ list_blobs (sdk:=InMemory.sdk) example_self "t2" example_account
     = (inl (ResourceNotFoundError ContainerNotFound), example_account).
Proof.
  split; [reflexivity |].
  destruct (list_blobs_lists_what_exists example_self "t1" example_account)
    as [listed _].
  destruct (listed ["f.txt"] example_account eq_refl) as [nodup member].
  split; [exact nodup | split; [apply member |]].
  split; [reflexivity |].
  now apply (list_blobs_lists_what_exists example_self "t2" example_account).
Defined.

Lemma text_of_string_encodable (s : string) :
  exists b, utf8_encode (text_of_string s) = Some b.
Proof.
  destruct (utf8_encode (text_of_string s)) as [b |] eqn:Hs; [eauto |].
  apply utf8_encode_None, Exists_exists in Hs as (p & Hin & Hp).
  unfold text_of_string in Hin.
  apply list_elem_of_fmap in Hin as (x & -> & _).
  pose proof (Byte.to_N_bounded x) as Hx. exfalso.
  destruct Hp as [Hp | Hp]; [| lia].
  unfold is_surrogate in Hp. apply andb_true_iff in Hp as [Hp _].
  apply N.leb_le in Hp. lia.
Qed.

Lemma utf8_encode_app_None (a b : text) :
  utf8_encode (a ++ b) = None <-> utf8_encode a = None \/ utf8_encode b = None.
Proof. rewrite !utf8_encode_None. apply Exists_app. Qed.

(** The content the loop uploads for a name has bytes exactly when the
    characters of the name have. *)
Lemma content_of_name_None (chars : text) :
  utf8_encode (text_of_string "Content of " ++ chars) = None <->
  utf8_encode chars = None.
Proof.
  rewrite utf8_encode_app_None.
  destruct (text_of_string_encodable "Content of ") as [b Hb].
  rewrite Hb. split; [now intros [? | ?] | auto].
Qed.

Section InMemoryLoop.
Variable name_chars : string -> text.
Variables (self : AzureBlobStorage) (c : string).

Lemma upload_each_in_memory (blob_names : list string)
    (blobs : gmap string bytes) (w : InMemory.account) :
  Forall (fun n => is_Some (utf8_encode (name_chars n))) blob_names ->
  w !! c = Some blobs ->
  exists blobs',
    upload_each (sdk:=InMemory.sdk) name_chars self c blob_names w
    = (inr tt, <[c := blobs']> w)
    /\ dom blobs' = dom blobs ∪ list_to_set blob_names.
Proof.
  revert blobs w.
  induction blob_names as [| n blob_names IH]; intros blobs w Hnames Hc; simpl.
  - exists blobs. unfold ret. rewrite insert_id by exact Hc.
    split; [reflexivity |]. now rewrite (right_id_L ∅ (∪)).
  - apply Forall_cons in Hnames as [Hn Hnames].
    destruct (utf8_encode (text_of_string "Content of " ++ name_chars n))
      as [b |] eqn:Hb;
      [| apply (proj1 (content_of_name_None _)) in Hb; rewrite Hb in Hn;
         now destruct Hn].
    assert (Hbytes :
      content_bytes (Str (text_of_string "Content of " ++ name_chars n))
      = inr b) by (unfold content_bytes, str_encode_utf8; now rewrite Hb).
    pose proof (upload_blob_overwrites self c n _ b w blobs Hbytes Hc) as Hup.
    change (upload_blob self c n
              (Str (text_of_string "Content of " ++ name_chars n))
              (Some true) w)
      with (upload_blob (sdk:=InMemory.sdk) self c n
              (Str (text_of_string "Content of " ++ name_chars n)) None w)
      in Hup.
    rewrite (bind_ok _ _ w _ _ Hup).
    destruct (IH (<[n := b]> blobs) (<[c := <[n := b]> blobs]> w) Hnames)
      as (blobs' & Hrun & Hdom); [apply lookup_insert_eq |].
    exists blobs'. rewrite Hrun, insert_insert_eq.
    split; [reflexivity |].
    rewrite Hdom, dom_insert_L.
    now rewrite (comm_L (∪) {[n]} (dom blobs)), (assoc_L (∪)).
Qed.

Lemma upload_each_raises (blob_names : list string)
    (blobs : gmap string bytes) (w : InMemory.account) :
  Exists (fun n => utf8_encode (name_chars n) = None) blob_names ->
  w !! c = Some blobs ->
  exists w',
    upload_each (sdk:=InMemory.sdk) name_chars self c blob_names w
    = (inl (UnicodeEncodeError "utf-8"), w').
Proof.
  revert blobs w.
  induction blob_names as [| n blob_names IH]; intros blobs w Hnames Hc;
    [inversion Hnames |].
  simpl.
  destruct (utf8_encode (text_of_string "Content of " ++ name_chars n))
    as [b |] eqn:Hb.
  - assert (Hbytes :
      content_bytes (Str (text_of_string "Content of " ++ name_chars n))
      = inr b) by (unfold content_bytes, str_encode_utf8; now rewrite Hb).
    pose proof (upload_blob_overwrites self c n _ b w blobs Hbytes Hc) as Hup.
    change (upload_blob self c n
              (Str (text_of_string "Content of " ++ name_chars n))
              (Some true) w)
      with (upload_blob (sdk:=InMemory.sdk) self c n
              (Str (text_of_string "Content of " ++ name_chars n)) None w)
      in Hup.
    rewrite (bind_ok _ _ w _ _ Hup).
    apply Exists_cons in Hnames as [Hn | Hnames].
    + apply (proj2 (content_of_name_None _)) in Hn. congruence.
    + apply (IH (<[n := b]> blobs)); [exact Hnames | apply lookup_insert_eq].
  - exists w. apply bind_raises.
    now apply (upload_blob_not_encodable (sdk:=InMemory.sdk) self c n
                 {| blob_container := c; blob_name := n |}).
Qed.

End InMemoryLoop.

(** X7. [test_list_blobs] on the in-memory account, for any list of blob
    names and a container name that is not taken. When the characters of
    every name have a [utf-8] encoding, the run reaches the assertions,
    the listing has the same members as the names uploaded (the [set]
    assertion holds), and it has as many entries as the list of names
    exactly when the names are distinct (the [len] assertion holds for
    distinct names and fails for a list with a repeated name). When some
    name has characters without encoding (a lone surrogate), the run
    raises [UnicodeEncodeError] in the loop and never reaches the
    assertions. *)
Theorem test_list_blobs_assertions (name_chars : string -> text)
    (blob_storage : AzureBlobStorage) (test_container_name : string)
    (blob_names : list string) (w : InMemory.account) :
  w !! test_container_name = None ->
  (Forall (fun n => is_Some (utf8_encode (name_chars n))) blob_names ->
   exists listed_blobs w',
     test_list_blobs (sdk:=InMemory.sdk) name_chars blob_storage
       test_container_name blob_names w
     = (inr listed_blobs, w')
     /\ (forall n, n ∈ listed_blobs <-> n ∈ blob_names)
     /\ (length listed_blobs = length blob_names <-> NoDup blob_names))
  /\ (Exists (fun n => utf8_encode (name_chars n) = None) blob_names ->
      exists w',
        test_list_blobs (sdk:=InMemory.sdk) name_chars blob_storage
          test_container_name blob_names w
        = (inl (UnicodeEncodeError "utf-8"), w')).
Proof.
  intros Hfresh. unfold test_list_blobs.
  pose proof (create_container_in_memory blob_storage test_container_name w)
    as Hcreate.
  rewrite Hfresh in Hcreate. rewrite (bind_ok _ _ w _ _ Hcreate).
  split.
  - intros Hnames.
    destruct (upload_each_in_memory name_chars blob_storage
                test_container_name blob_names ∅
                (<[test_container_name := ∅]> w) Hnames)
      as (blobs & Hrun & Hdom); [apply lookup_insert_eq |].
    rewrite insert_insert_eq in Hrun. rewrite (bind_ok _ _ _ _ _ Hrun).
    pose proof (list_blobs_in_memory blob_storage test_container_name
                  (<[test_container_name := blobs]> w)) as Hlist.
    rewrite lookup_insert_eq in Hlist. rewrite (bind_ok _ _ _ _ _ Hlist).
    do 2 eexists. split; [reflexivity |].
    assert (Hmem :
      forall n, n ∈ map fst (map_to_list blobs) <-> n ∈ blob_names).
    { intros n. transitivity (n ∈ dom blobs).
      - rewrite elem_of_dom, list_elem_of_fmap. split.
        + intros ([n' b] & -> & Hin). apply elem_of_map_to_list in Hin. eauto.
        + intros [b Hb]. exists (n, b). split; [reflexivity |].
          now apply elem_of_map_to_list.
      - rewrite Hdom, dom_empty_L, (left_id_L ∅ (∪)).
        apply elem_of_list_to_set. }
    split; [exact Hmem |].
    pose proof (NoDup_fst_map_to_list blobs) as Hnodup. split.
    + intros Hlen. apply NoDup_ListNoDup.
      eapply NoDup_incl_NoDup;
        [apply NoDup_ListNoDup, Hnodup
        | apply Nat.eq_le_incl; symmetry; exact Hlen |].
      intros n Hin. rewrite <- list_elem_of_In in Hin |- *. now apply Hmem.
    + intros Hdistinct. apply Permutation_length.
      apply NoDup_Permutation; assumption.
  - intros Hbad.
    destruct (upload_each_raises name_chars blob_storage test_container_name
                blob_names ∅ (<[test_container_name := ∅]> w) Hbad)
      as (w' & Hrun); [apply lookup_insert_eq |].
    exists w'. now apply bind_raises.
Qed.

Lemma test_list_blobs_assertions_witness :
  (∅ : InMemory.account) !! "test-container-1a2b3c4d" = None
  /\ (Forall (fun n => is_Some (utf8_encode (text_of_string n)))
        ["file1.txt"; "file2.txt"; "file3.txt"]
      /\ exists listed_blobs w',
        test_list_blobs (sdk:=InMemory.sdk) text_of_string example_self
          "test-container-1a2b3c4d" ["file1.txt"; "file2.txt"; "file3.txt"] ∅
        = (inr listed_blobs, w')
        /\ (forall n,
               n ∈ listed_blobs <->
               n ∈ ["file1.txt"; "file2.txt"; "file3.txt"])
        /\ (length listed_blobs = 3 <->
            NoDup ["file1.txt"; "file2.txt"; "file3.txt"]))
  /\ (Exists (fun n => utf8_encode ((fun _ : string => [0xD800%N]) n) = None)
        ["file1.txt"]
      /\ exists w',
        test_list_blobs (sdk:=InMemory.sdk) (fun _ => [0xD800%N]) example_self
          "test-container-1a2b3c4d" ["file1.txt"] ∅
        = (inl (UnicodeEncodeError "utf-8"), w')).
Proof.
  assert (Hnames :
    Forall (fun n => is_Some (utf8_encode (text_of_string n)))
      ["file1.txt"; "file2.txt"; "file3.txt"])
    by (repeat constructor; eexists; reflexivity).
  assert (Hbad :
    Exists (fun n => utf8_encode ((fun _ : string => [0xD800%N]) n) = None)
      ["file1.txt"]) by (constructor; reflexivity).
  split; [reflexivity | split].
  - split; [exact Hnames |].
    now apply (test_list_blobs_assertions text_of_string example_self
                 "test-container-1a2b3c4d"
                 ["file1.txt"; "file2.txt"; "file3.txt"] ∅).
  - split; [exact Hbad |].
    now apply (test_list_blobs_assertions (fun _ => [0xD800%N]) example_self
                 "test-container-1a2b3c4d" ["file1.txt"] ∅).
Defined.

(** ** Deleting a container *)

(** X8. On the in-memory account: once [delete_container] has returned,
    [blob_exists] answers [False] for every name in that container,
    [list_blobs] of it raises [ResourceNotFoundError], and the downloads
    from every other container give what they gave before. Deleting a
    container that is not there raises [ResourceNotFoundError] and leaves
    the account as it was. *)
Theorem delete_container_removes_its_blobs (self : AzureBlobStorage)
    (c : string) (w : InMemory.account) :
  (forall w',
      delete_container (sdk:=InMemory.sdk) self c w = (inr tt, w') ->
      (forall n, blob_exists (sdk:=InMemory.sdk) self c n w' = (inr false, w'))
      /\ list_blobs (sdk:=InMemory.sdk) self c w'
         = (inl (ResourceNotFoundError ContainerNotFound), w')
      /\ (forall c' n,
             c' <> c ->
             (download_blob (sdk:=InMemory.sdk) self c' n w').1
             = (download_blob (sdk:=InMemory.sdk) self c' n w).1))
  /\ (w !! c = None ->
      delete_container (sdk:=InMemory.sdk) self c w
      = (inl (ResourceNotFoundError ContainerNotFound), w)).
Proof.
  unfold delete_container. simpl. unfold InMemory.delete_container_request.
  split.
  - destruct (w !! c) as [blobs |] eqn:Hc; [| discriminate].
    intros w' [= <-]. split; [| split].
    + intros n. apply blob_exists_absent. unfold InMemory.blob_absent.
      now rewrite lookup_delete_eq.
    + now rewrite list_blobs_in_memory, lookup_delete_eq.
    + intros c' n Hne. rewrite !download_blob_in_memory. simpl.
      unfold InMemory.find_blob. simpl.
      now rewrite lookup_delete_ne by congruence.
  - now intros ->.
Qed.

Lemma delete_container_removes_its_blobs_witness :
  delete_container (sdk:=InMemory.sdk) example_self "t1" example_account
  = (inr tt, ∅)
  /\ blob_exists (sdk:=InMemory.sdk) example_self "t1" "f.txt" ∅
     = (inr false, ∅)
  /\ example_account !! "t2" = None
  /\ delete_container (sdk:=InMemory.sdk) example_self "t2" example_account
     = (inl (ResourceNotFoundError ContainerNotFound), example_account).
Proof.
  destruct (delete_container_removes_its_blobs example_self "t1"
              example_account) as [deleted _].
  destruct (deleted ∅ eq_refl) as (gone & _).
  split; [reflexivity | split; [apply gone |]].
  split; [reflexivity |].
  now apply (delete_container_removes_its_blobs example_self "t2"
               example_account).
Defined.

(** ** Uploading without overwriting *)

(** X9. On the in-memory account, [upload_blob] with [overwrite=False]:
    onto a blob that can be downloaded it raises [ResourceExistsError] and
    leaves the account, hence the old content, as it was; onto a free
    name in an existing container it stores the content and returns the
    handle. *)
Theorem upload_blob_without_overwrite (self : AzureBlobStorage) (c n : string)
    (data : bytes_or_str) (b : bytes) (w : InMemory.account) :
  content_bytes data = inr b ->
  (forall old,
      download_blob (sdk:=InMemory.sdk) self c n w = (inr old, w) ->
      upload_blob (sdk:=InMemory.sdk) self c n data (Some false) w
      = (inl (ResourceExistsError BlobAlreadyExists), w))
  /\ (forall blobs,
         w !! c = Some blobs -> blobs !! n = None ->
         upload_blob (sdk:=InMemory.sdk) self c n data (Some false) w
         = (inr {| blob_container := c; blob_name := n |},
            <[c := <[n := b]> blobs]> w)).
Proof.
  intros Hb.
  rewrite (upload_blob_request (sdk:=InMemory.sdk) self c n
             {| blob_container := c; blob_name := n |} eq_refl _ _ b w Hb).
  simpl. unfold InMemory.upload_request. simpl. split.
  - intros old. rewrite download_blob_in_memory. intros [= Hfind].
    apply find_blob_present in Hfind as (blobs & -> & Hn).
    rewrite Hn. now rewrite bool_decide_eq_true_2 by eauto.
  - intros blobs -> Hn. rewrite Hn.
    now rewrite bool_decide_eq_false_2 by (intros [? [=]]).
Qed.

Lemma upload_blob_without_overwrite_witness :
  content_bytes (Bytes binary_example) = inr binary_example
  /\ download_blob (sdk:=InMemory.sdk) example_self "t1" "f.txt"
       example_account
     = (inr (String.list_byte_of_string "hello"), example_account)
  /\ upload_blob (sdk:=InMemory.sdk) example_self "t1" "f.txt"
       (Bytes binary_example) (Some false) example_account
     = (inl (ResourceExistsError BlobAlreadyExists), example_account)
  /\ example_account !! "t1"
     = Some {[ "f.txt" := String.list_byte_of_string "hello" ]}
  /\ ({[ "f.txt" := String.list_byte_of_string "hello" ]}
        : gmap string bytes) !! "g.bin" = None
  /\ upload_blob (sdk:=InMemory.sdk) example_self "t1" "g.bin"
       (Bytes binary_example) (Some false) example_account
     = (inr {| blob_container := "t1"; blob_name := "g.bin" |},
        <["t1" := <["g.bin" := binary_example]>
                    {[ "f.txt" := String.list_byte_of_string "hello" ]}]>
          example_account).
Proof.
  split; [reflexivity | split; [reflexivity |]].
  destruct (upload_blob_without_overwrite example_self "t1" "f.txt"
              (Bytes binary_example) binary_example example_account eq_refl)
    as [conflict _].
  split; [apply (conflict (String.list_byte_of_string "hello")); reflexivity |].
  split; [reflexivity | split; [reflexivity |]].
  destruct (upload_blob_without_overwrite example_self "t1" "g.bin"
              (Bytes binary_example) binary_example example_account eq_refl)
    as [_ free].
  apply free; reflexivity.
Defined.

(** ** Other blobs are left alone *)

Lemma find_blob_other c n c' n' blobs blobs' (w : InMemory.account) :
  (c', n') <> (c, n) ->
  w !! c = Some blobs ->
  (forall k, k <> n -> blobs' !! k = blobs !! k) ->
  InMemory.find_blob {| blob_container := c'; blob_name := n' |}
    (<[c := blobs']> w)
  = InMemory.find_blob {| blob_container := c'; blob_name := n' |} w.
Proof.
  intros Hne Hc Hsame. unfold InMemory.find_blob. simpl.
  destruct (decide (c' = c)) as [-> | Hcc].
  - rewrite lookup_insert_eq, Hc, Hsame by congruence. reflexivity.
  - now rewrite lookup_insert_ne by congruence.
Qed.

(** X10. On the in-memory account, an [upload_blob] or a [delete_blob]
    aimed at one blob, whatever its outcome, changes nothing for any
    other blob: [download_blob] of another name, or of the same name in
    another container, gives afterwards what it gave before. *)
Theorem other_blobs_untouched (self : AzureBlobStorage) (c n c' n' : string)
    (w : InMemory.account) :
  (c', n') <> (c, n) ->
  (forall data overwrite,
      (download_blob (sdk:=InMemory.sdk) self c' n'
         (upload_blob (sdk:=InMemory.sdk) self c n data overwrite w).2).1
      = (download_blob (sdk:=InMemory.sdk) self c' n' w).1)
  /\ (download_blob (sdk:=InMemory.sdk) self c' n'
        (delete_blob (sdk:=InMemory.sdk) self c n w).2).1
     = (download_blob (sdk:=InMemory.sdk) self c' n' w).1.
Proof.
  intros Hne. split.
  - intros data overwrite. rewrite !download_blob_in_memory. simpl.
    destruct (upload_blob_account self c n data overwrite w)
      as [-> | (b & blobs & Hc & ->)]; [reflexivity |].
    apply (find_blob_other c n c' n' blobs); [exact Hne | exact Hc |].
    intros k Hk. now rewrite lookup_insert_ne.
  - rewrite !download_blob_in_memory, delete_blob_in_memory. simpl.
    unfold InMemory.delete_blob_request. simpl.
    destruct (w !! c) as [blobs |] eqn:Hc; [| reflexivity].
    destruct (blobs !! n) eqn:Hn; [| reflexivity]. simpl.
    apply (find_blob_other c n c' n' blobs); [exact Hne | exact Hc |].
    intros k Hk. now rewrite lookup_delete_ne.
Qed.

Lemma other_blobs_untouched_witness :
  ("t1", "f.txt") <> ("t1", "g.bin")
  /\ (download_blob (sdk:=InMemory.sdk) example_self "t1" "f.txt"
        (upload_blob (sdk:=InMemory.sdk) example_self "t1" "g.bin"
           (Bytes binary_example) None example_account).2).1
     = inr (String.list_byte_of_string "hello").
Proof.
  split; [discriminate |].
  destruct (other_blobs_untouched example_self "t1" "g.bin" "t1" "f.txt"
              example_account) as [uploads _]; [discriminate |].
  now rewrite uploads.
Defined.

(** ** Deleting what was uploaded *)

(** X11. On the in-memory account: after an [upload_blob] has returned,
    [delete_blob] of that blob returns; from then on [download_blob] of it
    raises [ResourceNotFoundError], and so does a second [delete_blob],
    which leaves the account as it is. *)
Theorem delete_blob_after_upload (self : AzureBlobStorage) (c n : string)
    (data : bytes_or_str) (overwrite : option bool)
    (w w1 : InMemory.account) (handle : BlobClient) :
  upload_blob (sdk:=InMemory.sdk) self c n data overwrite w
  = (inr handle, w1) ->
  exists w2,
    delete_blob (sdk:=InMemory.sdk) self c n w1 = (inr tt, w2)
    /\ download_blob (sdk:=InMemory.sdk) self c n w2
       = (inl (ResourceNotFoundError BlobNotFound), w2)
    /\ delete_blob (sdk:=InMemory.sdk) self c n w2
       = (inl (ResourceNotFoundError BlobNotFound), w2).
Proof.
  intros Hup.
  apply upload_blob_succeeded in Hup as (b & blobs & _ & _ & -> & _).
  rewrite delete_blob_in_memory. unfold InMemory.delete_blob_request. simpl.
  rewrite !lookup_insert_eq. eexists. split; [reflexivity |].
  rewrite download_blob_in_memory, delete_blob_in_memory.
  unfold InMemory.find_blob, InMemory.delete_blob_request. simpl.
  now rewrite !lookup_insert_eq, !lookup_delete_eq.
Qed.

Lemma delete_blob_after_upload_witness :
  upload_blob (sdk:=InMemory.sdk) example_self "t1" "delete-test.txt"
    (Str (text_of_string "test data")) None example_account
  = (inr {| blob_container := "t1"; blob_name := "delete-test.txt" |},
     <["t1" := <["delete-test.txt" := String.list_byte_of_string "test data"]>
                 {[ "f.txt" := String.list_byte_of_string "hello" ]}]>
       example_account)
  /\ exists w2,
      delete_blob (sdk:=InMemory.sdk) example_self "t1" "delete-test.txt"
        (<["t1" := <["delete-test.txt" :=
                      String.list_byte_of_string "test data"]>
                    {[ "f.txt" := String.list_byte_of_string "hello" ]}]>
           example_account)
      = (inr tt, w2)
      /\ download_blob (sdk:=InMemory.sdk) example_self "t1" "delete-test.txt"
           w2
         = (inl (ResourceNotFoundError BlobNotFound), w2)
      /\ delete_blob (sdk:=InMemory.sdk) example_self "t1" "delete-test.txt" w2
         = (inl (ResourceNotFoundError BlobNotFound), w2).
Proof.
  split; [vm_compute; reflexivity |].
  apply (delete_blob_after_upload example_self "t1" "delete-test.txt"
           (Str (text_of_string "test data")) None example_account _
           {| blob_container := "t1"; blob_name := "delete-test.txt" |}).
  vm_compute; reflexivity.
Defined.

(** ** A container once created *)

(** X12. On the in-memory account, [create_container] makes the container
    usable whatever the account was: it returns, and in the account it
    leaves every [upload_blob] into the container with the default
    [overwrite] returns for content that has bytes, under every blob
    name. If the name was not taken before, the new container lists as
    empty. *)
Theorem create_container_then_use (self : AzureBlobStorage) (c : string)
    (w : InMemory.account) :
  exists w1,
    create_container (sdk:=InMemory.sdk) self c w
    = (inr {| container_name := c |}, w1)
    /\ (forall n data b,
           content_bytes data = inr b ->
           exists w2,
             upload_blob (sdk:=InMemory.sdk) self c n data None w1
             = (inr {| blob_container := c; blob_name := n |}, w2))
    /\ (w !! c = None ->
        list_blobs (sdk:=InMemory.sdk) self c w1 = (inr [], w1)).
Proof.
  rewrite create_container_in_memory. eexists. split; [reflexivity |].
  assert (Hthere :
    exists blobs,
      (match w !! c with Some _ => w | None => <[c := ∅]> w end) !! c
      = Some blobs).
  { destruct (w !! c) eqn:Hc; [eauto |]. rewrite lookup_insert_eq. eauto. }
  destruct Hthere as [blobs Hblobs]. split.
  - intros n data b Hb. eexists.
    exact (upload_blob_overwrites self c n data b _ blobs Hb Hblobs).
  - intros Hfree. rewrite Hfree, list_blobs_in_memory, lookup_insert_eq.
    now rewrite map_to_list_empty.
Qed.

Lemma create_container_then_use_witness :
  exists w1,
    create_container (sdk:=InMemory.sdk) example_self "t2" example_account
    = (inr {| container_name := "t2" |}, w1)
    /\ (content_bytes (Bytes binary_example) = inr binary_example
        /\ exists w2,
          upload_blob (sdk:=InMemory.sdk) example_self "t2" "test-binary.bin"
            (Bytes binary_example) None w1
          = (inr {| blob_container := "t2"; blob_name := "test-binary.bin" |},
             w2))
    /\ (example_account !! "t2" = None
        /\ list_blobs (sdk:=InMemory.sdk) example_self "t2" w1 = (inr [], w1)).
Proof.
  destruct (create_container_then_use example_self "t2" example_account)
    as (w1 & created & uploads & empty).
  exists w1. split; [exact created |].
  split; [split; [reflexivity | now apply (uploads _ _ binary_example)] |].
  split; [reflexivity | now apply empty].
Defined.

(** ** Texts read back *)

Lemma utf8_decode_encode_witness :
  utf8_encode text_example
  = Some [x48; xc3; xa9; xe2; x82; xac; xf0; x9f; x98; x80; x00]
  /\ utf8_decode [x48; xc3; xa9; xe2; x82; xac; xf0; x9f; x98; x80; x00]
     = Some text_example.
Proof.
  split; [reflexivity |].
  apply (utf8_decode_encode text_example). reflexivity.
Defined.

Lemma get_blob_as_text_round_trip_witness :
  lookup_decoder (PyCodecs:=builtin_codecs) "utf-8" = Some utf8_decode
  /\ upload_blob (sdk:=InMemory.sdk) example_self "t1" "test-file.txt"
       (Str text_example) None example_account
     = (inr {| blob_container := "t1"; blob_name := "test-file.txt" |},
        <["t1" := <["test-file.txt" :=
                      [x48; xc3; xa9; xe2; x82; xac; xf0; x9f; x98; x80; x00]]>
                    {[ "f.txt" := String.list_byte_of_string "hello" ]}]>
          example_account)
  /\ get_blob_as_text (sdk:=InMemory.sdk) (codecs:=builtin_codecs) example_self
       "t1" "test-file.txt" None
       (<["t1" := <["test-file.txt" :=
                     [x48; xc3; xa9; xe2; x82; xac; xf0; x9f; x98; x80; x00]]>
                   {[ "f.txt" := String.list_byte_of_string "hello" ]}]>
          example_account)
     = (inr text_example,
        <["t1" := <["test-file.txt" :=
                      [x48; xc3; xa9; xe2; x82; xac; xf0; x9f; x98; x80; x00]]>
                    {[ "f.txt" := String.list_byte_of_string "hello" ]}]>
          example_account).
Proof.
  split; [reflexivity | split; [vm_compute; reflexivity |]].
  apply (get_blob_as_text_round_trip builtin_codecs example_self "t1"
           "test-file.txt" text_example None example_account _
           {| blob_container := "t1"; blob_name := "test-file.txt" |});
    [reflexivity | vm_compute; reflexivity].
Defined.

(** ** What a constructed facade holds *)

(** X15. For every SDK: an object that [__init__] returns holds a
    non-empty connection string, which is the argument if that was
    non-empty and the value of [AZURE_STORAGE_CONNECTION_STRING]
    otherwise, and its client is the one
    [BlobServiceClient.from_connection_string] built from that string. *)
Theorem init_result_invariant {W : Type} {sdk : BlobSdk W}
    (getenv : string -> option string) (cs : option string)
    (self : AzureBlobStorage) :
  __init__ getenv cs = inr self ->
  connection_string self <> ""
  /\ BlobServiceClient_from_connection_string (connection_string self)
     = inr (blob_service_client self)
  /\ (cs = Some (connection_string self)
      \/ (truthy cs = false
          /\ getenv "AZURE_STORAGE_CONNECTION_STRING"
             = Some (connection_string self))).
Proof.
  unfold __init__, py_or.
  destruct (truthy cs) eqn:Hcs.
  - rewrite Hcs. simpl. destruct cs as [s |]; [| discriminate].
    destruct (BlobServiceClient_from_connection_string s) as [e | client]
      eqn:Hclient; [discriminate |].
    intros [= <-]. simpl. apply truthy_Some in Hcs. auto.
  - destruct (getenv "AZURE_STORAGE_CONNECTION_STRING") as [s |] eqn:Henv;
      [| discriminate].
    destruct (truthy (Some s)) eqn:Hs; [| discriminate]. simpl.
    destruct (BlobServiceClient_from_connection_string s) as [e | client]
      eqn:Hclient; [discriminate |].
    intros [= <-]. simpl. apply truthy_Some in Hs. auto.
Qed.

Lemma init_result_invariant_witness :
  __init__ (sdk:=InMemory.sdk) (env_with "env-key") (Some "")
  = inr {| connection_string := "env-key";
           blob_service_client := {| credential := "env-key" |} |}
  /\ "env-key" <> ""
  /\ env_with "env-key" "AZURE_STORAGE_CONNECTION_STRING" = Some "env-key".
Proof.
  split; [reflexivity |].
  destruct (init_result_invariant (sdk:=InMemory.sdk) (env_with "env-key")
              (Some "")
              {| connection_string := "env-key";
                 blob_service_client := {| credential := "env-key" |} |}
              eq_refl) as (nonempty & _ & [explicit | [_ from_env]]).
  - split; [exact nonempty | reflexivity].
  - split; [exact nonempty | exact from_env].
Defined.

(** ** Containers come and go only when asked *)

Section InMemoryContainers.
Import InMemory.
Context {codecs : PyCodecs}.
Variable self : AzureBlobStorage.
Implicit Types (w : account) (k : call).

Lemma upload_blob_keeps_containers c n data overwrite w :
  dom (upload_blob self c n data overwrite w).2 = dom w.
Proof.
  destruct (upload_blob_account self c n data overwrite w)
    as [-> | (b & blobs & Hc & ->)]; [reflexivity |].
  apply dom_insert_lookup_L. eauto.
Qed.

Lemma delete_blob_keeps_containers c n w :
  dom (delete_blob self c n w).2 = dom w.
Proof.
  rewrite delete_blob_in_memory. unfold delete_blob_request. simpl.
  destruct (w !! c) as [blobs |] eqn:Hc; [| reflexivity].
  destruct (blobs !! n); [| reflexivity]. simpl.
  apply dom_insert_lookup_L. eauto.
Qed.

Lemma run_call_containers k w :
  ((forall c, k <> CreateContainer c) -> dom (run_call self k w) ⊆ dom w)
  /\ ((forall c, k <> DeleteContainer c) -> dom w ⊆ dom (run_call self k w)).
Proof.
  destruct k as [c | c n data overwrite | c n | c n encoding | c n
                | c n | c | c]; simpl.
  - split; [intros H; now destruct (H c) |]. intros _.
    rewrite create_container_in_memory. simpl.
    destruct (w !! c); [reflexivity |]. apply dom_insert_subseteq.
  - rewrite upload_blob_keeps_containers. now split.
  - rewrite (download_blob_preserves (sdk:=sdk) download_request_preserves
               readall_stream_preserves self c n w). now split.
  - rewrite (get_blob_as_text_preserves (sdk:=sdk) download_request_preserves
               readall_stream_preserves self c n encoding w). now split.
  - rewrite (blob_exists_preserves (sdk:=sdk) properties_request_preserves
               self c n w). now split.
  - rewrite delete_blob_keeps_containers. now split.
  - split; [| intros H; now destruct (H c)]. intros _.
    unfold delete_container. simpl. unfold delete_container_request.
    destruct (w !! c); [| reflexivity]. simpl.
    rewrite dom_delete_L. apply subseteq_difference_l. reflexivity.
  - rewrite (list_blobs_preserves (sdk:=sdk) list_blobs_request_preserves
               self c w). now split.
Qed.

End InMemoryContainers.

(** X16. On the in-memory account, over any sequence of facade calls,
    each with its exception caught: if none of the calls is
    [create_container], no container is there afterwards that was not
    there before (an upload never creates its container); if none is
    [delete_container], every container that was there is still there. *)
Theorem containers_change_only_when_asked (codecs : PyCodecs)
    (self : AzureBlobStorage) (ks : list call) (w : InMemory.account) :
  (Forall (fun k => forall c, k <> CreateContainer c) ks ->
   dom (run_script (sdk:=InMemory.sdk) self ks w) ⊆ dom w)
  /\ (Forall (fun k => forall c, k <> DeleteContainer c) ks ->
      dom w ⊆ dom (run_script (sdk:=InMemory.sdk) self ks w)).
Proof.
  unfold run_script. revert w.
  induction ks as [| k ks IH]; intros w; simpl; [now split |].
  destruct (IH (run_call (sdk:=InMemory.sdk) self k w)) as [IHc IHd].
  destruct (run_call_containers self k w) as [Hc Hd].
  split; intros Hks; inversion Hks as [| ? ? Hk Hrest]; subst.
  - etransitivity; [apply IHc, Hrest | apply Hc, Hk].
  - etransitivity; [apply Hd, Hk | apply IHd, Hrest].
Qed.

Lemma containers_change_only_when_asked_witness :
  Forall (fun k => forall c, k <> CreateContainer c)
    [UploadBlob "t2" "f.txt" (Bytes binary_example) None;
     DeleteBlob "t1" "f.txt"; BlobExists "t3" "f.txt"]
  /\ dom (run_script (sdk:=InMemory.sdk) (codecs:=builtin_codecs) example_self
            [UploadBlob "t2" "f.txt" (Bytes binary_example) None;
             DeleteBlob "t1" "f.txt"; BlobExists "t3" "f.txt"]
            example_account)
     ⊆ dom example_account.
Proof.
  assert (Hks :
    Forall (fun k => forall c, k <> CreateContainer c)
      [UploadBlob "t2" "f.txt" (Bytes binary_example) None;
       DeleteBlob "t1" "f.txt"; BlobExists "t3" "f.txt"])
    by (repeat constructor; discriminate).
  split; [exact Hks |].
  now apply (containers_change_only_when_asked builtin_codecs example_self).
Defined.
